(** * Unpacking of packed linear weights

    A shallow embedding of
    [aten/src/ATen/native/quantized/cpu/LinearUnpackImpl.cpp]:
    the four [unpack()] methods
    - [PackedLinearWeight::unpack]        (fbgemm, int8),
    - [PackedLinearWeightsQnnp::unpack]   (QNNPACK, int8),
    - [PackedLinearWeightFp16::unpack]    (fbgemm, float16),
    - [PackedLinearWeightsOnednn::unpack] (oneDNN, pass-through).

    An [at::Tensor] is a handle on a reference-counted [TensorImpl]; a
    default-constructed handle is the undefined tensor.  The embedding keeps
    that: a tensor is an optional location into a store of tensor records,
    and every method is a computation in a state-and-error monad over the
    store.  Allocation failure (out of memory) is outside the model. *)

From Stdlib Require Import ZArith Lia QArith.
From stdpp Require Import base option list gmap.

Local Open Scope Z_scope.

(** ** Scalars *)

(** [static_cast<int8_t>]: the value of a two's-complement byte. *)
Definition to_int8 (z : Z) : Z := (z + 128) mod 256 - 128.

(** The float formats involved, and the two widening conversions the code
    performs (float16 -> float32 in [Tensor::to(kFloat)], float -> double when
    a [float] scale is passed for a [double] parameter).  The code only moves
    and widens such values, so their representation is left open. *)
Class FloatFormats : Type := {
  float16 : Type;
  float32 : Type;
  float64 : Type;
  half_to_float : float16 -> float32;
  float_to_double : float32 -> float64;
}.

(** [c10::ScalarType], restricted to the element types the file names. *)
Inductive ScalarType : Set :=
| kChar | kInt | kLong | kHalf | kFloat | kDouble | kQInt8.

Global Instance ScalarType_eq_dec : EqDecision ScalarType.
Proof. solve_decision. Defined.

(** Modelled from the spec: [c10::QScheme] is declared in c10/core/QScheme.h.
    The unpacking code compares against the per-tensor and the per-channel
    affine tags only; every other tag of the enumeration is [kOtherQScheme],
    with its numeric code. *)
Inductive QScheme : Set :=
| kPerTensorAffine
| kPerChannelAffine
| kOtherQScheme (code : nat).

Global Instance QScheme_eq_dec : EqDecision QScheme.
Proof. solve_decision. Defined.

(** ** Tensors and the store *)

Definition loc := positive.

Section Runtime.
Context {FF : FloatFormats}.

(** The flat, contiguous (row-major) content of a tensor's storage.
    [at::empty] and its relatives return storage that was never written. *)
Inductive Buffer : Type :=
| Uninitialized
| IntBuf (l : list Z)
| HalfBuf (l : list float16)
| FloatBuf (l : list float32)
| DoubleBuf (l : list float64).

(** The quantizer attached to a quantized tensor.  A per-channel quantizer
    holds its scales and zero points as tensors of their own. *)
Inductive Quantizer : Type :=
| NoQuantizer
| PerTensorAffineQuantizer (scale : float64) (zero_point : Z)
| PerChannelAffineQuantizer (scales zero_points : loc) (axis : Z).

Record TensorImpl : Type := mkTensorImpl {
  sizes : list Z;
  dtype : ScalarType;
  quantizer : Quantizer;
  data : Buffer;
}.

(** [at::Tensor]: [None] is the undefined tensor. *)
Definition Tensor : Type := option loc.

(** [Tensor::defined()] *)
Definition defined (t : Tensor) : bool :=
  match t with Some _ => true | None => false end.

(** ** The state-and-error monad *)

Inductive Error : Set :=
| UndefinedTensor       (* an accessor was applied to an undefined tensor *)
| ScalarTypeMismatch    (* data_ptr<T>() on a tensor of another element type *)
| EmptyArrayAccess      (* element 0 of an empty array *)
| Unsupported           (* an operation at element types the file never uses it at *)
| NotQuantized          (* qscheme() of a tensor without a quantizer *)
| CheckFailed.          (* TORCH_CHECK *)

Global Instance Error_eq_dec : EqDecision Error.
Proof. solve_decision. Defined.

Inductive Result (A : Type) : Type :=
| Ok (a : A)
| Err (e : Error).
Global Arguments Ok {A} a.
Global Arguments Err {A} e.

(** [raises e r]: the outcome [r] is the error [e]. *)
Definition raises {A} (e : Error) (r : Result A) : bool :=
  match r with
  | Err e' => bool_decide (e' = e)
  | Ok _ => false
  end.

Definition M (A : Type) : Type := gmap loc TensorImpl -> Result (A * gmap loc TensorImpl).

Definition ret {A} (a : A) : M A := fun σ => Ok (a, σ).
Definition raise {A} (e : Error) : M A := fun _ => Err e.
Definition bind {A B} (c : M A) (k : A -> M B) : M B :=
  fun σ => match c σ with
           | Ok (a, σ') => k a σ'
           | Err e => Err e
           end.

End Runtime.

Notation "'let!' x ':=' c 'in' k" := (bind c (fun x => k))
  (at level 10, x name, c at level 100, k at level 200).
Notation "'do!' c 'in' k" := (bind c (fun _ => k))
  (at level 10, c at level 100, k at level 200).

Section TensorRuntime.
Context {FF : FloatFormats}.

Implicit Types (σ : gmap loc TensorImpl) (t : Tensor) (l : loc).

(** *** Store access *)

(** A fresh [TensorImpl] is allocated at a location the store does not use. *)
Definition new_tensor (impl : TensorImpl) : M Tensor :=
  fun σ => let l := fresh (dom σ) in Ok (Some l, <[l := impl]> σ).

(** Dereferencing a handle.  A handle that denotes no tensor record is treated
    like the undefined tensor. *)
Definition deref (t : Tensor) : M TensorImpl :=
  fun σ => match t with
           | Some l => match σ !! l with
                       | Some impl => Ok (impl, σ)
                       | None => Err UndefinedTensor
                       end
           | None => Err UndefinedTensor
           end.

(** In-place replacement of the storage content behind a data pointer. *)
Definition write_data (p : loc) (b : Buffer) : M unit :=
  fun σ => match σ !! p with
           | Some impl =>
               Ok (tt, <[p := mkTensorImpl (sizes impl) (dtype impl) (quantizer impl) b]> σ)
           | None => Err UndefinedTensor
           end.

(** Modelled from the spec: [TensorBase::data_ptr<T>()] belongs to the tensor
    runtime (ATen/core), not to the translated file.  The accessor is typed: it
    raises on the undefined tensor, which is how a weight whose scheme was not
    recognized becomes the fatal error of 4.1 and 7, and on a tensor whose
    element type is not the requested one.  On success the pointer is the
    tensor's own storage. *)
Definition data_ptr (T : ScalarType) (t : Tensor) : M loc :=
  let! impl := deref t in
  if decide (dtype impl = T)
  then match t with Some l => ret l | None => raise UndefinedTensor end
  else raise ScalarTypeMismatch.

(** [TensorBase::data_ptr()], the untyped accessor: the tensor's storage. *)
Definition data_ptr_void (t : Tensor) : M loc :=
  let! impl := deref t in
  match t with Some l => ret l | None => raise UndefinedTensor end.

(** Reading [p[0]] through a [float*].  On an empty array the C++ read is out
    of range; the model surfaces it as a failure. *)
Definition read_float0 (p : loc) : M float32 :=
  let! impl := deref (Some p) in
  match data impl with
  | FloatBuf (x :: _) => ret x
  | _ => raise EmptyArrayAccess
  end.

(** [v[0]] of a [std::vector]. *)
Definition vector_front {A} (v : list A) : M A :=
  match v with
  | x :: _ => ret x
  | [] => raise EmptyArrayAccess
  end.

(** *** Factory functions and methods of the tensor runtime *)

(** Modelled from the spec: [at::empty(sizes, dtype)] allocates an
    uninitialized dense tensor of the given shape, without quantizer. *)
Definition empty (sz : list Z) (dt : ScalarType) : M Tensor :=
  new_tensor (mkTensorImpl sz dt NoQuantizer Uninitialized).

(** Modelled from the spec: [at::_empty_affine_quantized(sizes, options, scale,
    zero_point)] allocates an uninitialized tensor whose metadata is the
    single scale/zero-point pair. *)
Definition _empty_affine_quantized
    (sz : list Z) (dt : ScalarType) (scale : float64) (zero_point : Z) : M Tensor :=
  new_tensor (mkTensorImpl sz dt (PerTensorAffineQuantizer scale zero_point) Uninitialized).

(** Modelled from the spec: [at::_empty_per_channel_affine_quantized(sizes,
    scales, zero_points, axis, options)] allocates an uninitialized tensor
    whose metadata refers to the two given tensors and the axis. *)
Definition _empty_per_channel_affine_quantized
    (sz : list Z) (scales zero_points : Tensor) (axis : Z) (dt : ScalarType) : M Tensor :=
  match scales, zero_points with
  | Some ls, Some lz =>
      new_tensor (mkTensorImpl sz dt (PerChannelAffineQuantizer ls lz axis) Uninitialized)
  | _, _ => raise UndefinedTensor
  end.

(** Modelled from the spec: [at::from_blob(data, n, dtype)] is a
    one-dimensional tensor of [n] elements over existing memory. *)
Definition from_blob (b : Buffer) (n : nat) (dt : ScalarType) : M Tensor :=
  new_tensor (mkTensorImpl [Z.of_nat n] dt NoQuantizer b).

(** Element conversion of [Tensor::toType] / [Tensor::to], for the
    conversions the file performs: int32 -> int64 keeps the value,
    float -> double and half -> float are the widenings of [FloatFormats]. *)
Definition convert (src dst : ScalarType) (b : Buffer) : option Buffer :=
  match src, dst, b with
  | kInt, kLong, IntBuf l => Some (IntBuf l)
  | kFloat, kDouble, FloatBuf l => Some (DoubleBuf (map float_to_double l))
  | kHalf, kFloat, HalfBuf l => Some (FloatBuf (map half_to_float l))
  | _, _, _ => None
  end.

(** Modelled from the spec: [Tensor::toType(dtype)] and [Tensor::to(dtype)]
    return the tensor itself when it already has the element type, and
    otherwise a new tensor of the same shape with every element converted. *)
Definition toType (t : Tensor) (dst : ScalarType) : M Tensor :=
  let! impl := deref t in
  if decide (dtype impl = dst) then ret t
  else match convert (dtype impl) dst (data impl) with
       | Some b => new_tensor (mkTensorImpl (sizes impl) dst NoQuantizer b)
       | None => raise Unsupported
       end.

(** [Tensor::to(dtype)] *)
Definition Tensor_to (t : Tensor) (dst : ScalarType) : M Tensor := toType t dst.

(** Modelled from the spec: [Tensor::sub_(c)] on an int8 tensor subtracts [c]
    from every element in place, in signed 8-bit arithmetic. *)
Definition sub_ (t : Tensor) (c : Z) : M unit :=
  let! impl := deref t in
  match t, data impl with
  | Some l, IntBuf xs => write_data l (IntBuf (map (fun x => to_int8 (x - c)) xs))
  | Some l, Uninitialized => ret tt
  | Some l, _ => raise Unsupported
  | None, _ => raise UndefinedTensor
  end.

(** Modelled from the spec: [at::_make_per_tensor_quantized_tensor(t, scale,
    zero_point)] wraps the int8 content of [t] with the single pair as a
    per-tensor quantized (qint8) tensor of the same shape. *)
Definition _make_per_tensor_quantized_tensor
    (t : Tensor) (scale : float64) (zero_point : Z) : M Tensor :=
  let! impl := deref t in
  new_tensor (mkTensorImpl (sizes impl) kQInt8
                (PerTensorAffineQuantizer scale zero_point) (data impl)).

(** Modelled from the spec: [Tensor::qscheme()] is the scheme of the tensor's
    quantizer; it is an error on a tensor that has none. *)
Definition qscheme (t : Tensor) : M QScheme :=
  let! impl := deref t in
  match quantizer impl with
  | PerTensorAffineQuantizer _ _ => ret kPerTensorAffine
  | PerChannelAffineQuantizer _ _ _ => ret kPerChannelAffine
  | NoQuantizer => raise NotQuantized
  end.

(** [TORCH_CHECK(cond)] *)
Definition TORCH_CHECK (cond : bool) : M unit :=
  if cond then ret tt else raise CheckFailed.

End TensorRuntime.

(** ** The kernel libraries *)

(** [fbgemm::matrix_op_t] *)
Inductive matrix_op_t : Set := NoTranspose | Transpose.

(** The packed matrices of fbgemm and QNNPACK.  Their blocked layouts and
    decoding routines are the libraries' own and stay abstract: a decoding
    routine is given by the content it leaves in the destination buffer.
    - [PackBMatrix_unpack B] is what [fbgemm::PackBMatrix<int8_t>::unpack]
      writes (int8 values);
    - [unpackWeights B zero_points] is what [qnnpack::PackBMatrix::unpackWeights]
      writes, as the raw bytes (0..255) it stores;
    - [PackedGemmMatrixFP16_at B i j] is element [(i, j)] of the float16 matrix
      that [B] holds, for [i < numRows] and [j < numCols]. *)
Class KernelLibraries {FF : FloatFormats} : Type := {
  PackBMatrix : Type;
  PackBMatrix_numRows : PackBMatrix -> nat;
  PackBMatrix_numCols : PackBMatrix -> nat;
  PackBMatrix_unpack : PackBMatrix -> list Z;
  QnnpPackBMatrix : Type;
  unpackWeights : QnnpPackBMatrix -> list Z -> list Z;
  PackedGemmMatrixFP16 : Type;
  PackedGemmMatrixFP16_numRows : PackedGemmMatrixFP16 -> nat;
  PackedGemmMatrixFP16_numCols : PackedGemmMatrixFP16 -> nat;
  PackedGemmMatrixFP16_at : PackedGemmMatrixFP16 -> nat -> nat -> float16;
}.

Section Fp16Decode.
Context {FF : FloatFormats} {KL : KernelLibraries}.

(** Modelled from the spec: [fbgemm::PackedGemmMatrixFP16::unpack(buf, op)] is
    kernel-library code.  It stores element [(i, j)] of the packed matrix at
    offset [i * numCols + j] of the destination, and with the transpose flag
    at offset [i + numRows * j]: the destination is then filled as the
    transpose of the packed matrix. *)
Definition PackedGemmMatrixFP16_unpack
    (B : PackedGemmMatrixFP16) (op : matrix_op_t) : list float16 :=
  let nrows := PackedGemmMatrixFP16_numRows B in
  let ncols := PackedGemmMatrixFP16_numCols B in
  match op with
  | NoTranspose =>
      flat_map (fun i => map (fun j => PackedGemmMatrixFP16_at B i j) (seq 0 ncols))
               (seq 0 nrows)
  | Transpose =>
      flat_map (fun j => map (fun i => PackedGemmMatrixFP16_at B i j) (seq 0 nrows))
               (seq 0 ncols)
  end.

End Fp16Decode.

(** ** The packed weights and their [unpack()] methods

    The classes are declared in headers (fbgemm_utils.h, QnnpackUtils.h,
    OnednnUtils.h); each record has the members its [unpack()] reads.  No
    method assigns a member, so the object itself is an immutable argument;
    tensors it refers to live in the store. *)

Module PackedLinearWeight.
Section Def.
Context {FF : FloatFormats} {KL : KernelLibraries}.

Record t : Type := mk {
  w : PackBMatrix;
  bias_ : option Tensor;
  w_scale : list float32;
  w_zp : list Z;
  q_scheme : QScheme;
}.

Definition unpack (self : t) : M (Tensor * option Tensor) :=
  let packB := w self in
  let N := Z.of_nat (PackBMatrix_numCols packB) in
  let K := Z.of_nat (PackBMatrix_numRows packB) in
  let! weight_origin :=
    (if decide (q_scheme self = kPerTensorAffine) then
       let! scale := vector_front (w_scale self) in
       let! zero_point := vector_front (w_zp self) in
       _empty_affine_quantized [N; K] kQInt8 (float_to_double scale) zero_point
     else if decide (q_scheme self = kPerChannelAffine) then
       let! scales :=
         from_blob (FloatBuf (w_scale self)) (length (w_scale self)) kFloat in
       let! zero_points :=
         from_blob (IntBuf (w_zp self)) (length (w_zp self)) kInt in
       let! scales_double := toType scales kDouble in
       let! zero_points_long := toType zero_points kLong in
       _empty_per_channel_affine_quantized
         [N; K] scales_double zero_points_long 0 kQInt8
     else
       (* neither branch assigns: weight_origin stays default-constructed *)
       ret None) in
  let! weight_ptr_int8 := data_ptr kQInt8 weight_origin in
  do! write_data weight_ptr_int8 (IntBuf (PackBMatrix_unpack packB)) in
  ret (weight_origin, bias_ self).

End Def.
End PackedLinearWeight.

Module PackedLinearWeightsQnnp.
Section Def.
Context {FF : FloatFormats} {KL : KernelLibraries}.

Record t : Type := mk {
  w : QnnpPackBMatrix;
  orig_weight : Tensor;
  bias_ : option Tensor;
  w_scales : Tensor;
  w_zero_points : list Z;
  weight_sizes : list Z;
}.

(** The path taken when no original weight was retained. *)
Definition unpack_reconstruct (self : t) : M (Tensor * option Tensor) :=
  let! weight_scales_data := data_ptr kFloat (w_scales self) in
  let! weight_origin := empty (weight_sizes self) kChar in
  let! weight_ptr_int8 := data_ptr kChar weight_origin in
  do! write_data weight_ptr_int8
        (IntBuf (map to_int8 (unpackWeights (w self) (w_zero_points self)))) in
  do! sub_ weight_origin 128 in
  let! scale := read_float0 weight_scales_data in
  let! zero_point := vector_front (w_zero_points self) in
  let! original_quantized_tensor :=
    _make_per_tensor_quantized_tensor
      weight_origin (float_to_double scale) zero_point in
  let! scheme := qscheme original_quantized_tensor in
  do! TORCH_CHECK (bool_decide (scheme = kPerTensorAffine)) in
  ret (original_quantized_tensor, bias_ self).

Definition unpack (self : t) : M (Tensor * option Tensor) :=
  if defined (orig_weight self)
  then ret (orig_weight self, bias_ self)
  else unpack_reconstruct self.

End Def.
End PackedLinearWeightsQnnp.

Module PackedLinearWeightFp16.
Section Def.
Context {FF : FloatFormats} {KL : KernelLibraries}.

Record t : Type := mk {
  w : PackedGemmMatrixFP16;
  bias_ : option Tensor;
}.

Definition unpack (self : t) : M (Tensor * option Tensor) :=
  let packed_weight_ptr := w self in
  let nrows := PackedGemmMatrixFP16_numRows packed_weight_ptr in
  let ncols := PackedGemmMatrixFP16_numCols packed_weight_ptr in
  let! unpacked_weight := empty [Z.of_nat ncols; Z.of_nat nrows] kHalf in
  let! buf := data_ptr_void unpacked_weight in
  do! write_data buf
        (HalfBuf (PackedGemmMatrixFP16_unpack packed_weight_ptr Transpose)) in
  let! widened := Tensor_to unpacked_weight kFloat in
  ret (widened, bias_ self).

End Def.
End PackedLinearWeightFp16.

Module PackedLinearWeightsOnednn.
Section Def.
Context {FF : FloatFormats}.

Record t : Type := mk {
  orig_weight_ : Tensor;
  orig_bias_ : option Tensor;
}.

Definition unpack (self : t) : M (Tensor * option Tensor) :=
  ret (orig_weight_ self, orig_bias_ self).

End Def.
End PackedLinearWeightsOnednn.

(** [LinearPackedParamsBase]: the four implementations of the virtual
    [unpack()], as a closed sum. *)
Section Dispatch.
Context {FF : FloatFormats} {KL : KernelLibraries}.

Inductive LinearPackedParamsBase : Type :=
| Fbgemm (self : PackedLinearWeight.t)
| Qnnp (self : PackedLinearWeightsQnnp.t)
| Fp16 (self : PackedLinearWeightFp16.t)
| Onednn (self : PackedLinearWeightsOnednn.t).

Definition unpack (self : LinearPackedParamsBase) : M (Tensor * option Tensor) :=
  match self with
  | Fbgemm pw => PackedLinearWeight.unpack pw
  | Qnnp pw => PackedLinearWeightsQnnp.unpack pw
  | Fp16 pw => PackedLinearWeightFp16.unpack pw
  | Onednn pw => PackedLinearWeightsOnednn.unpack pw
  end.

End Dispatch.

(** ** What a caller observes of a tensor

    The shape, element type, elements and quantization parameters of a
    tensor, read through the store; the scale and zero-point tensors of a
    per-channel quantizer are read through as well, so that two tensors at
    different locations can be compared by content. *)
Section Observation.
Context {FF : FloatFormats}.

Inductive QParams : Type :=
| QNone
| QPerTensor (scale : float64) (zero_point : Z)
| QPerChannel (scales zero_points : option Buffer) (axis : Z).

Record TensorValue : Type := mkTensorValue {
  v_sizes : list Z;
  v_dtype : ScalarType;
  v_qparams : QParams;
  v_data : Buffer;
}.

Definition qparams_of (σ : gmap loc TensorImpl) (q : Quantizer) : QParams :=
  match q with
  | NoQuantizer => QNone
  | PerTensorAffineQuantizer s z => QPerTensor s z
  | PerChannelAffineQuantizer ls lz axis =>
      QPerChannel (data <$> σ !! ls) (data <$> σ !! lz) axis
  end.

Definition tensor_value (σ : gmap loc TensorImpl) (t : Tensor) : option TensorValue :=
  match t with
  | Some l =>
      match σ !! l with
      | Some impl =>
          Some (mkTensorValue (sizes impl) (dtype impl)
                  (qparams_of σ (quantizer impl)) (data impl))
      | None => None
      end
  | None => None
  end.


End Observation.

(** The dimensions a packed weight records: the packed matrix's column and
    row counts (fbgemm int8), the stored [weight_sizes] (QNNPACK), the packed
    matrix's [ncols], [nrows] (fbgemm float16).  The oneDNN weight keeps the
    dense tensor itself and records no dimensions beside it. *)
Section Recorded.
Context {FF : FloatFormats} {KL : KernelLibraries}.


(** The int8 content of a reconstructed QNNPACK weight: every byte written by
    [unpackWeights], stored through [int8_t*], then shifted by [sub_(128)]. *)
Definition corrected_bytes (self : PackedLinearWeightsQnnp.t) : list Z :=
  map (fun x => to_int8 (x - 128))
      (map to_int8 (unpackWeights (PackedLinearWeightsQnnp.w self)
                      (PackedLinearWeightsQnnp.w_zero_points self))).

(** Whether [unpack()] builds its result: always for the two fbgemm weights,
    for a QNNPACK weight when no dense tensor was retained, never for oneDNN. *)
Definition reconstructs (self : LinearPackedParamsBase) : bool :=
  match self with
  | Fbgemm _ | Fp16 _ => true
  | Qnnp pw => negb (defined (PackedLinearWeightsQnnp.orig_weight pw))
  | Onednn _ => false
  end.

(** Whether [unpack()] dereferences no tensor of the packed weight: the two
    fbgemm weights hold their bias only to hand it back. *)
Definition reads_no_tensor (self : LinearPackedParamsBase) : bool :=
  match self with
  | Fbgemm _ | Fp16 _ => true
  | Qnnp _ | Onednn _ => false
  end.


(** The bias member of a packed weight. *)
Definition stored_bias (self : LinearPackedParamsBase) : option Tensor :=
  match self with
  | Fbgemm pw => PackedLinearWeight.bias_ pw
  | Qnnp pw => PackedLinearWeightsQnnp.bias_ pw
  | Fp16 pw => PackedLinearWeightFp16.bias_ pw
  | Onednn pw => PackedLinearWeightsOnednn.orig_bias_ pw
  end.

End Recorded.

(** ** A concrete runtime, for running the model

    Floats are the rationals they denote (both widenings are exact), and the
    kernel libraries keep a matrix in plain row-major order. *)
Module Plain.

Record DenseMatrix (A : Type) : Type := mkDense {
  rows : nat;
  cols : nat;
  elems : list A;
}.
Global Arguments mkDense {A} rows cols elems.
Global Arguments rows {A} d.
Global Arguments cols {A} d.
Global Arguments elems {A} d.

Definition floats : FloatFormats :=
  {| float16 := Q; float32 := Q; float64 := Q;
     half_to_float := fun x => x; float_to_double := fun x => x |}.

Definition kernels : @KernelLibraries floats :=
  {| PackBMatrix := DenseMatrix Z;
     PackBMatrix_numRows := rows;
     PackBMatrix_numCols := cols;
     PackBMatrix_unpack := elems;
     QnnpPackBMatrix := list Z;
     unpackWeights := fun B _ => B;
     PackedGemmMatrixFP16 := DenseMatrix Q;
     PackedGemmMatrixFP16_numRows := rows;
     PackedGemmMatrixFP16_numCols := cols;
     PackedGemmMatrixFP16_at :=
       fun (B : DenseMatrix Q) (i j : nat) =>
         (nth (i * cols B + j)%nat (elems B) 0%Q : @float16 floats) |}.

#[local] Existing Instances floats kernels.

(** A store holding a float tensor of two scales (location 1), a dense
    qint8 weight (location 2) and a float bias (location 3). *)
Definition store : gmap loc TensorImpl :=
  {[ 1%positive := mkTensorImpl [2] kFloat NoQuantizer (FloatBuf [1 # 2; 1 # 4]%Q);
     2%positive := mkTensorImpl [2; 3] kQInt8 (PerTensorAffineQuantizer (1 # 2)%Q 0)
                     (IntBuf [1; 2; 3; 4; 5; 6]);
     3%positive := mkTensorImpl [2] kFloat NoQuantizer (FloatBuf [0 # 1; 1 # 1]%Q) ]}.

(** The 2x3 weight [[1,2,3],[4,5,6]] with scale 0.5 and zero point 0. *)
Definition fbgemm_per_tensor : PackedLinearWeight.t :=
  PackedLinearWeight.mk (mkDense 3 2 [1; 2; 3; 4; 5; 6]) None
    [(1 # 2)%Q] [0] kPerTensorAffine.

Definition fbgemm_per_channel : PackedLinearWeight.t :=
  PackedLinearWeight.mk (mkDense 3 2 [1; 2; 3; 4; 5; 6]) (Some (Some 3%positive))
    [1 # 2; 1 # 4]%Q [0; 1] kPerChannelAffine.

(** The same weight tagged with a scheme that is neither of the two. *)
Definition fbgemm_symmetric : PackedLinearWeight.t :=
  PackedLinearWeight.mk (mkDense 3 2 [1; 2; 3; 4; 5; 6]) None
    [(1 # 2)%Q] [0] (kOtherQScheme 2).

(** A QNNPACK weight without retained tensor, with two different
    scale/zero-point pairs, (0.5, 3) and (0.25, 7). *)
Definition qnnp_two_pairs : PackedLinearWeightsQnnp.t :=
  PackedLinearWeightsQnnp.mk [128; 129; 130; 0; 255; 127] None (Some (Some 3%positive))
    (Some 1%positive) [3; 7] [2; 3].

(** A QNNPACK weight that retained its dense tensor. *)
Definition qnnp_retained : PackedLinearWeightsQnnp.t :=
  PackedLinearWeightsQnnp.mk [129; 130; 131; 132; 133; 134] (Some 2%positive)
    (Some (Some 3%positive)) (Some 1%positive) [0; 0] [2; 3].

(** The float16 matrix [[1,2,3],[4,5,6]], K = 2 rows by N = 3 columns. *)
Definition fp16_2x3 : PackedLinearWeightFp16.t :=
  PackedLinearWeightFp16.mk (mkDense 2 3 [1 # 1; 2 # 1; 3 # 1; 4 # 1; 5 # 1; 6 # 1]%Q) None.

Definition onednn_dense : PackedLinearWeightsOnednn.t :=
  PackedLinearWeightsOnednn.mk (Some 2%positive) (Some (Some 3%positive)).



End Plain.

(** * Properties *)

(** ** Stepping through the monad and the store *)

Section StoreLemmas.
Context {FF : FloatFormats}.
Implicit Types (σ : gmap loc TensorImpl).

Lemma fresh_lookup σ : σ !! fresh (dom σ) = None.
Proof. apply not_elem_of_dom, is_fresh. Qed.

Lemma insert_fresh_subseteq σ impl : σ ⊆ <[fresh (dom σ) := impl]> σ.
Proof. apply insert_subseteq, fresh_lookup. Qed.

Lemma lookup_insert_fresh σ l impl impl' :
  σ !! l = Some impl -> <[fresh (dom σ) := impl']> σ !! l = Some impl.
Proof. intros H. eapply lookup_weaken; [exact H | apply insert_fresh_subseteq]. Qed.

Lemma bind_Ok {A B} (c : M A) (k : A -> M B) σ a σ' :
  c σ = Ok (a, σ') -> bind c k σ = k a σ'.
Proof. intros H. unfold bind. now rewrite H. Qed.

Lemma bind_Err {A B} (c : M A) (k : A -> M B) σ e :
  c σ = Err e -> bind c k σ = Err e.
Proof. intros H. unfold bind. now rewrite H. Qed.

Lemma bind_step {A B} (c : M A) (k : A -> M B) σ a σ' r :
  c σ = Ok (a, σ') -> k a σ' = r -> bind c k σ = r.
Proof. intros H <-. now apply bind_Ok. Qed.

Lemma new_tensor_eq impl σ :
  new_tensor impl σ = Ok (Some (fresh (dom σ)), <[fresh (dom σ) := impl]> σ).
Proof. reflexivity. Qed.

Lemma deref_Some σ l impl :
  σ !! l = Some impl -> deref (Some l) σ = Ok (impl, σ).
Proof. intros H. unfold deref. now rewrite H. Qed.

Lemma data_ptr_Some T σ l impl :
  σ !! l = Some impl -> dtype impl = T -> data_ptr T (Some l) σ = Ok (l, σ).
Proof.
  intros H HT. unfold data_ptr.
  eapply bind_step; [apply deref_Some, H |].
  destruct (decide (dtype impl = T)); [reflexivity | contradiction].
Qed.

Lemma data_ptr_void_Some σ l impl :
  σ !! l = Some impl -> data_ptr_void (Some l) σ = Ok (l, σ).
Proof.
  intros H. unfold data_ptr_void.
  eapply bind_step; [apply deref_Some, H | reflexivity].
Qed.

Lemma data_ptr_inv T (t : Tensor) σ p σ' :
  data_ptr T t σ = Ok (p, σ') ->
  exists impl, t = Some p /\ σ' = σ /\ σ !! p = Some impl /\ dtype impl = T.
Proof.
  unfold data_ptr, bind, deref. destruct t as [l |]; [| discriminate].
  destruct (σ !! l) as [impl |] eqn:E; [| discriminate].
  destruct (decide (dtype impl = T)); [| discriminate].
  intros [= <- <-]. eauto.
Qed.

Lemma write_data_Some σ p impl b :
  σ !! p = Some impl ->
  write_data p b σ
  = Ok (tt, <[p := mkTensorImpl (sizes impl) (dtype impl) (quantizer impl) b]> σ).
Proof. intros H. unfold write_data. now rewrite H. Qed.

Lemma sub__IntBuf σ l impl xs c :
  σ !! l = Some impl -> data impl = IntBuf xs ->
  sub_ (Some l) c σ
  = Ok (tt, <[l := mkTensorImpl (sizes impl) (dtype impl) (quantizer impl)
                      (IntBuf (map (fun x => to_int8 (x - c)) xs))]> σ).
Proof.
  intros H Hd. unfold sub_.
  eapply bind_step; [apply deref_Some, H |].
  rewrite Hd. now apply write_data_Some.
Qed.

Lemma read_float0_cons σ p impl x xs :
  σ !! p = Some impl -> data impl = FloatBuf (x :: xs) ->
  read_float0 p σ = Ok (x, σ).
Proof.
  intros H Hd. unfold read_float0.
  eapply bind_step; [apply deref_Some, H |]. now rewrite Hd.
Qed.

Lemma read_float0_inv σ p x σ' :
  read_float0 p σ = Ok (x, σ') ->
  exists impl xs, σ !! p = Some impl /\ data impl = FloatBuf (x :: xs).
Proof.
  unfold read_float0, bind, deref.
  destruct (σ !! p) as [impl |] eqn:E; [| discriminate].
  destruct (data impl) as [| | | [| y ys] |] eqn:D; try discriminate.
  intros [= <- <-]. eauto.
Qed.

Lemma toType_convert σ l impl dst b :
  σ !! l = Some impl -> dtype impl <> dst ->
  convert (dtype impl) dst (data impl) = Some b ->
  toType (Some l) dst σ
  = Ok (Some (fresh (dom σ)),
        <[fresh (dom σ) := mkTensorImpl (sizes impl) dst NoQuantizer b]> σ).
Proof.
  intros H Hne Hc. unfold toType.
  eapply bind_step; [apply deref_Some, H |].
  destruct (decide (dtype impl = dst)); [contradiction |].
  now rewrite Hc.
Qed.

Lemma make_per_tensor_eq σ l impl s z :
  σ !! l = Some impl ->
  _make_per_tensor_quantized_tensor (Some l) s z σ
  = Ok (Some (fresh (dom σ)),
        <[fresh (dom σ) := mkTensorImpl (sizes impl) kQInt8
                             (PerTensorAffineQuantizer s z) (data impl)]> σ).
Proof.
  intros H. unfold _make_per_tensor_quantized_tensor.
  eapply bind_step; [apply deref_Some, H | reflexivity].
Qed.

Lemma qscheme_per_tensor σ l impl s z :
  σ !! l = Some impl -> quantizer impl = PerTensorAffineQuantizer s z ->
  qscheme (Some l) σ = Ok (kPerTensorAffine, σ).
Proof.
  intros H Hq. unfold qscheme.
  eapply bind_step; [apply deref_Some, H |]. now rewrite Hq.
Qed.

End StoreLemmas.

(** ** Signed-byte arithmetic *)

Lemma to_int8_range z : -128 <= to_int8 z <= 127.
Proof. unfold to_int8. pose proof (Z.mod_pos_bound (z + 128) 256). lia. Qed.

Lemma to_int8_small z : -128 <= z <= 127 -> to_int8 z = z.
Proof. intros H. unfold to_int8. rewrite Z.mod_small by lia. lia. Qed.

(** Storing a byte [v] through [int8_t*] and subtracting 128 in int8 yields
    [v - 128]: the two wrap-arounds cancel. *)
Lemma to_int8_offset v : 0 <= v <= 255 -> to_int8 (to_int8 v - 128) = v - 128.
Proof.
  intros H. unfold to_int8.
  destruct (Z_lt_le_dec v 128) as [Hlt | Hge].
  - rewrite (Z.mod_small (v + 128)) by lia.
    replace (v + 128 - 128 - 128 + 128) with v by lia.
    rewrite Z.mod_small by lia. reflexivity.
  - replace (v + 128) with (v - 128 + 1 * 256) by lia.
    rewrite Z_mod_plus_full, (Z.mod_small (v - 128)) by lia.
    replace (v - 128 - 128 - 128 + 128) with (v + (-1) * 256) by lia.
    rewrite Z_mod_plus_full, Z.mod_small by lia. reflexivity.
Qed.

(** ** Row-major indexing *)

Section RowMajor.
Context {A : Type}.

(** Element [(r, c)] of a matrix written row after row. *)
Lemma flat_map_rows_lookup (g : nat -> nat -> A) (C R s r c : nat) :
  (r < R)%nat -> (c < C)%nat ->
  flat_map (fun r' => map (g r') (seq 0 C)) (seq s R) !! (r * C + c)%nat
  = Some (g (s + r)%nat c).
Proof.
  revert s r. induction R as [| R IH]; intros s r Hr Hc; [lia |].
  cbn [seq flat_map].
  destruct r as [| r].
  - rewrite lookup_app_l by (rewrite length_map, length_seq; lia).
    change (map (g s) (seq 0 C)) with (g s <$> seq 0 C).
    rewrite list_lookup_fmap, lookup_seq_lt by lia.
    cbn. f_equal. f_equal; lia.
  - rewrite lookup_app_r by (rewrite length_map, length_seq; lia).
    rewrite length_map, length_seq.
    replace (S r * C + c - C)%nat with (r * C + c)%nat by lia.
    rewrite IH by lia. f_equal. f_equal. lia.
Qed.

Lemma flat_map_rows_length (g : nat -> nat -> A) (C R s : nat) :
  length (flat_map (fun r' => map (g r') (seq 0 C)) (seq s R)) = (R * C)%nat.
Proof.
  revert s. induction R as [| R IH]; intros s; [reflexivity |].
  cbn [seq flat_map]. rewrite length_app, length_map, length_seq, IH. lia.
Qed.

End RowMajor.

(** ** The four methods, path by path *)

Section Paths.
Context {FF : FloatFormats} {KL : KernelLibraries}.
Implicit Types (σ : gmap loc TensorImpl).

(** *** fbgemm, int8 *)

Lemma fbgemm_per_tensor_spec (self : PackedLinearWeight.t) σ s ss z zs :
  PackedLinearWeight.q_scheme self = kPerTensorAffine ->
  PackedLinearWeight.w_scale self = s :: ss ->
  PackedLinearWeight.w_zp self = z :: zs ->
  exists l σ',
    PackedLinearWeight.unpack self σ = Ok ((Some l, PackedLinearWeight.bias_ self), σ')
    /\ σ ⊆ σ'
    /\ σ' !! l
       = Some (mkTensorImpl
                 [Z.of_nat (PackBMatrix_numCols (PackedLinearWeight.w self));
                  Z.of_nat (PackBMatrix_numRows (PackedLinearWeight.w self))]
                 kQInt8
                 (PerTensorAffineQuantizer (float_to_double s) z)
                 (IntBuf (PackBMatrix_unpack (PackedLinearWeight.w self)))).
Proof.
  intros Hq Hs Hz.
  eexists (fresh (dom σ)), (<[fresh (dom σ) := _]> σ).
  split; [| split].
  - unfold PackedLinearWeight.unpack. rewrite Hq, Hs, Hz.
    destruct (decide (kPerTensorAffine = kPerTensorAffine)) as [_ | ?]; [| contradiction].
    eapply bind_step.
    { eapply bind_step; [reflexivity |]. eapply bind_step; [reflexivity |].
      apply new_tensor_eq. }
    eapply bind_step; [eapply data_ptr_Some; [apply lookup_insert_eq | reflexivity] |].
    eapply bind_step; [eapply write_data_Some; apply lookup_insert_eq |].
    rewrite insert_insert_eq. reflexivity.
  - apply insert_fresh_subseteq.
  - apply lookup_insert_eq.
Qed.

Lemma fbgemm_per_channel_spec (self : PackedLinearWeight.t) σ :
  PackedLinearWeight.q_scheme self = kPerChannelAffine ->
  exists l ls lz σ',
    PackedLinearWeight.unpack self σ = Ok ((Some l, PackedLinearWeight.bias_ self), σ')
    /\ σ ⊆ σ'
    /\ σ' !! l
       = Some (mkTensorImpl
                 [Z.of_nat (PackBMatrix_numCols (PackedLinearWeight.w self));
                  Z.of_nat (PackBMatrix_numRows (PackedLinearWeight.w self))]
                 kQInt8
                 (PerChannelAffineQuantizer ls lz 0)
                 (IntBuf (PackBMatrix_unpack (PackedLinearWeight.w self))))
    /\ σ' !! ls
       = Some (mkTensorImpl [Z.of_nat (length (PackedLinearWeight.w_scale self))]
                 kDouble NoQuantizer
                 (DoubleBuf (map float_to_double (PackedLinearWeight.w_scale self))))
    /\ σ' !! lz
       = Some (mkTensorImpl [Z.of_nat (length (PackedLinearWeight.w_zp self))]
                 kLong NoQuantizer (IntBuf (PackedLinearWeight.w_zp self))).
Proof.
  intros Hq.
  set (scales := PackedLinearWeight.w_scale self).
  set (zps := PackedLinearWeight.w_zp self).
  set (BS := mkTensorImpl [Z.of_nat (length scales)] kFloat NoQuantizer (FloatBuf scales)).
  set (BZ := mkTensorImpl [Z.of_nat (length zps)] kInt NoQuantizer (IntBuf zps)).
  set (SD := mkTensorImpl [Z.of_nat (length scales)] kDouble NoQuantizer
               (DoubleBuf (map float_to_double scales))).
  set (ZL := mkTensorImpl [Z.of_nat (length zps)] kLong NoQuantizer (IntBuf zps)).
  set (σ1 := <[fresh (dom σ) := BS]> σ).
  set (σ2 := <[fresh (dom σ1) := BZ]> σ1).
  set (σ3 := <[fresh (dom σ2) := SD]> σ2).
  set (σ4 := <[fresh (dom σ3) := ZL]> σ3).
  eexists (fresh (dom σ4)), (fresh (dom σ2)), (fresh (dom σ3)), (<[fresh (dom σ4) := _]> σ4).
  split; [| split; [| split; [| split]]].
  - unfold PackedLinearWeight.unpack. rewrite Hq.
    destruct (decide (kPerChannelAffine = kPerTensorAffine)) as [? | _]; [discriminate |].
    destruct (decide (kPerChannelAffine = kPerChannelAffine)) as [_ | ?]; [| contradiction].
    eapply bind_step.
    { eapply bind_step; [apply new_tensor_eq |]. fold scales BS σ1.
      eapply bind_step; [apply new_tensor_eq |]. fold zps BZ σ2.
      eapply bind_step.
      { eapply (toType_convert σ2 _ BS);
          [apply lookup_insert_fresh, lookup_insert_eq | discriminate | reflexivity]. }
      cbn [sizes BS]. fold SD σ3.
      eapply bind_step.
      { eapply (toType_convert σ3 _ BZ);
          [apply lookup_insert_fresh, lookup_insert_eq | discriminate | reflexivity]. }
      cbn [sizes BZ]. fold ZL σ4.
      apply new_tensor_eq. }
    eapply bind_step; [eapply data_ptr_Some; [apply lookup_insert_eq | reflexivity] |].
    eapply bind_step; [eapply write_data_Some; apply lookup_insert_eq |].
    rewrite insert_insert_eq. reflexivity.
  - repeat (etransitivity; [| apply insert_fresh_subseteq]). reflexivity.
  - apply lookup_insert_eq.
  - do 2 apply lookup_insert_fresh. apply lookup_insert_eq.
  - apply lookup_insert_fresh. apply lookup_insert_eq.
Qed.

(** With any other scheme neither branch allocates: the data pointer is
    requested from the undefined tensor. *)
Lemma fbgemm_other_scheme (self : PackedLinearWeight.t) σ :
  PackedLinearWeight.q_scheme self <> kPerTensorAffine ->
  PackedLinearWeight.q_scheme self <> kPerChannelAffine ->
  PackedLinearWeight.unpack self σ = Err UndefinedTensor.
Proof.
  intros H1 H2. unfold PackedLinearWeight.unpack.
  destruct (decide (PackedLinearWeight.q_scheme self = kPerTensorAffine)); [contradiction |].
  destruct (decide (PackedLinearWeight.q_scheme self = kPerChannelAffine)); [contradiction |].
  reflexivity.
Qed.

Lemma fbgemm_unpack_inv (self : PackedLinearWeight.t) σ r σ' :
  PackedLinearWeight.unpack self σ = Ok (r, σ') ->
  (PackedLinearWeight.q_scheme self = kPerTensorAffine
   /\ exists s ss z zs, PackedLinearWeight.w_scale self = s :: ss
                        /\ PackedLinearWeight.w_zp self = z :: zs)
  \/ PackedLinearWeight.q_scheme self = kPerChannelAffine.
Proof.
  intros H.
  destruct (decide (PackedLinearWeight.q_scheme self = kPerTensorAffine)) as [Ht | Ht].
  - left. split; [exact Ht |].
    unfold PackedLinearWeight.unpack in H. rewrite Ht in H.
    destruct (decide (kPerTensorAffine = kPerTensorAffine)) as [_ | ?]; [| contradiction].
    destruct (PackedLinearWeight.w_scale self) as [| s ss]; [discriminate |].
    destruct (PackedLinearWeight.w_zp self) as [| z zs]; [discriminate |].
    eauto 10.
  - destruct (decide (PackedLinearWeight.q_scheme self = kPerChannelAffine)) as [Hc | Hc].
    + now right.
    + rewrite fbgemm_other_scheme in H by assumption. discriminate.
Qed.

End Paths.

Section QnnpPath.
Context {FF : FloatFormats} {KL : KernelLibraries}.
Implicit Types (σ : gmap loc TensorImpl).
Import PackedLinearWeightsQnnp.

Lemma qnnp_reconstruct_spec (self : t) σ ls sz q s0 ss z0 zs :
  w_scales self = Some ls ->
  σ !! ls = Some (mkTensorImpl sz kFloat q (FloatBuf (s0 :: ss))) ->
  w_zero_points self = z0 :: zs ->
  exists l σ',
    unpack_reconstruct self σ = Ok ((Some l, bias_ self), σ')
    /\ σ ⊆ σ'
    /\ σ' !! l = Some (mkTensorImpl (weight_sizes self) kQInt8
                         (PerTensorAffineQuantizer (float_to_double s0) z0)
                         (IntBuf (corrected_bytes self))).
Proof.
  intros Hs Hls Hz.
  set (l1 := fresh (dom σ)).
  assert (Hl1 : σ !! l1 = None) by apply fresh_lookup.
  assert (Hne : l1 <> ls) by congruence.
  set (W := mkTensorImpl (weight_sizes self) kChar NoQuantizer
              (IntBuf (corrected_bytes self))).
  set (σ1 := <[l1 := W]> σ).
  eexists (fresh (dom σ1)), (<[fresh (dom σ1) := _]> σ1).
  split; [| split].
  - unfold unpack_reconstruct. rewrite Hs.
    eapply bind_step; [eapply data_ptr_Some; [exact Hls | reflexivity] |].
    eapply bind_step; [apply new_tensor_eq |]. fold l1.
    eapply bind_step; [eapply data_ptr_Some; [apply lookup_insert_eq | reflexivity] |].
    eapply bind_step; [eapply write_data_Some; apply lookup_insert_eq |].
    rewrite insert_insert_eq. cbn [sizes dtype quantizer].
    eapply bind_step; [eapply sub__IntBuf; [apply lookup_insert_eq | reflexivity] |].
    rewrite insert_insert_eq. cbn [sizes dtype quantizer].
    fold (corrected_bytes self). fold W. fold σ1.
    eapply bind_step.
    { eapply read_float0_cons.
      - unfold σ1. rewrite lookup_insert_ne by exact Hne. exact Hls.
      - reflexivity. }
    eapply bind_step; [rewrite Hz; reflexivity |].
    eapply bind_step; [eapply make_per_tensor_eq; apply lookup_insert_eq |].
    cbn [sizes data W].
    eapply bind_step; [eapply qscheme_per_tensor; [apply lookup_insert_eq | reflexivity] |].
    reflexivity.
  - etransitivity; [apply (insert_fresh_subseteq σ W) | apply insert_fresh_subseteq].
  - apply lookup_insert_eq.
Qed.

(** The reconstruction succeeds only if the scales tensor is a non-empty
    float tensor and there is a zero point. *)
Lemma qnnp_reconstruct_inv (self : t) σ r σ' :
  unpack_reconstruct self σ = Ok (r, σ') ->
  exists ls sz q s0 ss z0 zs,
    w_scales self = Some ls
    /\ σ !! ls = Some (mkTensorImpl sz kFloat q (FloatBuf (s0 :: ss)))
    /\ w_zero_points self = z0 :: zs.
Proof.
  unfold unpack_reconstruct. intros H.
  unfold bind at 1 in H.
  destruct (data_ptr kFloat _ σ) as [[p σ0] | e] eqn:E; [| discriminate].
  apply data_ptr_inv in E as (impl & Hs & -> & Hl & Hd).
  erewrite bind_Ok in H by apply new_tensor_eq.
  erewrite bind_Ok in H by (eapply data_ptr_Some; [apply lookup_insert_eq | reflexivity]).
  erewrite bind_Ok in H by (eapply write_data_Some; apply lookup_insert_eq).
  rewrite insert_insert_eq in H. cbn [sizes dtype quantizer] in H.
  erewrite bind_Ok in H by (eapply sub__IntBuf; [apply lookup_insert_eq | reflexivity]).
  rewrite insert_insert_eq in H. cbn [sizes dtype quantizer] in H.
  unfold bind at 1 in H.
  match type of H with context [read_float0 p ?s] =>
    destruct (read_float0 p s) as [[x σ2] | e] eqn:E end; [| discriminate].
  apply read_float0_inv in E as (impl' & xs & Hl' & Hd').
  rewrite lookup_insert_ne in Hl'.
  2:{ intros Heq. rewrite <- Heq, fresh_lookup in Hl. discriminate. }
  assert (impl' = impl) as -> by congruence.
  destruct (w_zero_points self) as [| z0 zs] eqn:Hz.
  { cbn in H. discriminate. }
  destruct impl as [sz dt q d]. cbn in Hd, Hd'. subst dt d.
  exists p, sz, q, x, xs, z0, zs. auto.
Qed.

End QnnpPath.

Section Fp16Path.
Context {FF : FloatFormats} {KL : KernelLibraries}.
Implicit Types (σ : gmap loc TensorImpl).
Import PackedLinearWeightFp16.

Lemma fp16_unpack_spec (self : t) σ :
  exists l σ',
    unpack self σ = Ok ((Some l, bias_ self), σ')
    /\ σ ⊆ σ'
    /\ σ' !! l = Some (mkTensorImpl
                         [Z.of_nat (PackedGemmMatrixFP16_numCols (w self));
                          Z.of_nat (PackedGemmMatrixFP16_numRows (w self))]
                         kFloat NoQuantizer
                         (FloatBuf (map half_to_float
                                      (PackedGemmMatrixFP16_unpack (w self) Transpose)))).
Proof.
  set (sz := [Z.of_nat (PackedGemmMatrixFP16_numCols (w self));
              Z.of_nat (PackedGemmMatrixFP16_numRows (w self))]).
  set (H16 := mkTensorImpl sz kHalf NoQuantizer
                (HalfBuf (PackedGemmMatrixFP16_unpack (w self) Transpose))).
  set (σ1 := <[fresh (dom σ) := H16]> σ).
  eexists (fresh (dom σ1)), (<[fresh (dom σ1) := _]> σ1).
  split; [| split].
  - unfold unpack. fold sz.
    eapply bind_step; [apply new_tensor_eq |].
    eapply bind_step; [eapply data_ptr_void_Some; apply lookup_insert_eq |].
    eapply bind_step; [eapply write_data_Some; apply lookup_insert_eq |].
    rewrite insert_insert_eq. cbn [sizes dtype quantizer]. fold H16 σ1.
    eapply bind_step.
    { unfold Tensor_to. eapply (toType_convert σ1 _ H16);
        [apply lookup_insert_eq | discriminate | reflexivity]. }
    reflexivity.
  - repeat (etransitivity; [| apply insert_fresh_subseteq]). reflexivity.
  - apply lookup_insert_eq.
Qed.

End Fp16Path.

(** ** What a caller reads from the result *)

Section Values.
Context {FF : FloatFormats} {KL : KernelLibraries}.
Implicit Types (σ : gmap loc TensorImpl).

Lemma tensor_value_lookup σ l impl :
  σ !! l = Some impl ->
  tensor_value σ (Some l)
  = Some (mkTensorValue (sizes impl) (dtype impl)
            (qparams_of σ (quantizer impl)) (data impl)).
Proof. intros H. unfold tensor_value. now rewrite H. Qed.

(** The value of a tensor without per-channel quantizer survives every
    extension of the store. *)
Lemma tensor_value_plain σ σ' l impl :
  σ !! l = Some impl -> σ ⊆ σ' ->
  (forall ls lz axis, quantizer impl <> PerChannelAffineQuantizer ls lz axis) ->
  tensor_value σ' (Some l)
  = Some (mkTensorValue (sizes impl) (dtype impl)
            (qparams_of σ (quantizer impl)) (data impl)).
Proof.
  intros Hl Hsub Hq.
  rewrite (tensor_value_lookup σ' l impl) by (eapply lookup_weaken; eauto).
  destruct (quantizer impl) eqn:E; try reflexivity.
  exfalso. eapply Hq. reflexivity.
Qed.

Lemma tensor_value_per_channel σ σ' l sz dt ls lz axis d simpl zimpl :
  σ !! l = Some (mkTensorImpl sz dt (PerChannelAffineQuantizer ls lz axis) d) ->
  σ !! ls = Some simpl -> σ !! lz = Some zimpl ->
  σ ⊆ σ' ->
  tensor_value σ' (Some l)
  = Some (mkTensorValue sz dt
            (QPerChannel (Some (data simpl)) (Some (data zimpl)) axis) d).
Proof.
  intros Hl Hls Hlz Hsub.
  rewrite (tensor_value_lookup σ' l _ (lookup_weaken _ _ _ _ Hl Hsub)).
  cbn. now rewrite (lookup_weaken _ _ _ _ Hls Hsub), (lookup_weaken _ _ _ _ Hlz Hsub).
Qed.

Lemma corrected_bytes_lookup (self : PackedLinearWeightsQnnp.t) i v :
  unpackWeights (PackedLinearWeightsQnnp.w self)
    (PackedLinearWeightsQnnp.w_zero_points self) !! i = Some v ->
  0 <= v <= 255 ->
  corrected_bytes self !! i = Some (v - 128).
Proof.
  intros Hi Hv. unfold corrected_bytes.
  rewrite map_map.
  change (map ?f ?l) with (f <$> l).
  rewrite list_lookup_fmap, Hi. cbn. f_equal. now apply to_int8_offset.
Qed.

End Values.

(** ** Which errors a step can raise *)

Section Errors.
Context {FF : FloatFormats} {KL : KernelLibraries}.
Implicit Types (σ : gmap loc TensorImpl).

Lemma raises_bind {A B} e (c : M A) (k : A -> M B) σ :
  raises e (c σ) = false ->
  (forall a σ', c σ = Ok (a, σ') -> raises e (k a σ') = false) ->
  raises e (bind c k σ) = false.
Proof.
  intros Hc Hk. unfold bind. destruct (c σ) as [[a σ'] | e'] eqn:E; [| exact Hc].
  now apply Hk.
Qed.

Lemma deref_no_check (t : Tensor) σ : raises CheckFailed (deref t σ) = false.
Proof. unfold deref. destruct t as [l |]; [destruct (σ !! l) |]; reflexivity. Qed.

Lemma data_ptr_no_check T (t : Tensor) σ : raises CheckFailed (data_ptr T t σ) = false.
Proof.
  unfold data_ptr. apply raises_bind; [apply deref_no_check |].
  intros impl σ' _. destruct (decide (dtype impl = T)); [destruct t |]; reflexivity.
Qed.

Lemma read_float0_no_check p σ : raises CheckFailed (read_float0 p σ) = false.
Proof.
  unfold read_float0. apply raises_bind; [apply deref_no_check |].
  intros impl σ' _. destruct (data impl) as [| | | [| x xs] |]; reflexivity.
Qed.

(** The tensor made by [_make_per_tensor_quantized_tensor] carries the
    per-tensor affine scheme. *)
Lemma make_per_tensor_then_qscheme (t : Tensor) s z σ :
  match (let! r := _make_per_tensor_quantized_tensor t s z in qscheme r) σ with
  | Ok (scheme, _) => scheme = kPerTensorAffine
  | Err e => e = UndefinedTensor
  end.
Proof.
  destruct t as [l |]; [| reflexivity].
  destruct (σ !! l) as [impl |] eqn:E.
  - erewrite bind_Ok by (eapply make_per_tensor_eq; exact E).
    erewrite qscheme_per_tensor; [reflexivity | apply lookup_insert_eq | reflexivity].
  - unfold bind, _make_per_tensor_quantized_tensor, bind, deref. now rewrite E.
Qed.

Lemma qnnp_reconstruct_no_check (self : PackedLinearWeightsQnnp.t) σ :
  raises CheckFailed (PackedLinearWeightsQnnp.unpack_reconstruct self σ) = false.
Proof.
  destruct (PackedLinearWeightsQnnp.unpack_reconstruct self σ) as [[r σ'] | e] eqn:E;
    [reflexivity |].
  revert E. unfold PackedLinearWeightsQnnp.unpack_reconstruct.
  unfold bind at 1.
  pose proof (data_ptr_no_check kFloat (PackedLinearWeightsQnnp.w_scales self) σ) as Hp.
  destruct (data_ptr kFloat _ σ) as [[p σ0] | e0] eqn:E0.
  2:{ intros [= <-]. exact Hp. }
  clear Hp. apply data_ptr_inv in E0 as (impl & Hs & -> & Hl & Hd).
  erewrite bind_Ok by apply new_tensor_eq.
  erewrite bind_Ok by (eapply data_ptr_Some; [apply lookup_insert_eq | reflexivity]).
  erewrite bind_Ok by (eapply write_data_Some; apply lookup_insert_eq).
  rewrite insert_insert_eq. cbn [sizes dtype quantizer].
  erewrite bind_Ok by (eapply sub__IntBuf; [apply lookup_insert_eq | reflexivity]).
  rewrite insert_insert_eq. cbn [sizes dtype quantizer].
  unfold bind at 1.
  match goal with |- context [read_float0 p ?s] =>
    pose proof (read_float0_no_check p s) as Hr;
    destruct (read_float0 p s) as [[x σ2] | e1] eqn:E1 end.
  2:{ intros [= <-]. exact Hr. }
  clear Hr.
  assert (σ2 = <[fresh (dom σ) :=
                   mkTensorImpl (PackedLinearWeightsQnnp.weight_sizes self) kChar
                     NoQuantizer (IntBuf (corrected_bytes self))]> σ) as ->.
  { unfold read_float0, bind, deref in E1.
    match type of E1 with context [?m !! p] => destruct (m !! p) as [i |] end;
      [| discriminate].
    destruct (data i) as [| | | [| y ys] |]; try discriminate.
    now injection E1 as _ <-. }
  destruct (PackedLinearWeightsQnnp.w_zero_points self) as [| z0 zs].
  { intros [= <-]. reflexivity. }
  erewrite bind_Ok by reflexivity.
  erewrite bind_Ok by (eapply make_per_tensor_eq; apply lookup_insert_eq).
  erewrite bind_Ok
    by (eapply qscheme_per_tensor; [apply lookup_insert_eq | reflexivity]).
  discriminate.
Qed.

End Errors.

(** * The claims *)

Section Claims.
Context {FF : FloatFormats} {KL : KernelLibraries}.
Implicit Types (σ : gmap loc TensorImpl).

(** C1.  fbgemm int8 weight whose stored scheme is neither per-tensor affine
    nor per-channel affine: [unpack()] fails, in every store, and that is its
    only behaviour.  Neither branch creates a tensor, so no scheme is chosen
    by default; the failure is raised where the data pointer of the
    still-undefined [weight_origin] is requested. *)
Theorem unpack_unrecognized_scheme_fails (self : PackedLinearWeight.t) σ :
  PackedLinearWeight.q_scheme self <> kPerTensorAffine ->
  PackedLinearWeight.q_scheme self <> kPerChannelAffine ->
  unpack (Fbgemm self) σ = Err UndefinedTensor.
Proof. intros H1 H2. cbn [unpack]. now apply fbgemm_other_scheme. Qed.

(** C2, as amended.  QNNPACK weight on the reconstructed path with more than
    one scale/zero-point pair stored: [unpack()] does not look at how many
    pairs there are.  It succeeds and returns a tensor that carries the
    per-tensor affine scheme, built from the pair at index 0. *)
Theorem qnnp_many_pairs_unpack_per_tensor
    (self : PackedLinearWeightsQnnp.t) σ ls sz q s0 s1 ss z0 z1 zs :
  defined (PackedLinearWeightsQnnp.orig_weight self) = false ->
  PackedLinearWeightsQnnp.w_scales self = Some ls ->
  σ !! ls = Some (mkTensorImpl sz kFloat q (FloatBuf (s0 :: s1 :: ss))) ->
  PackedLinearWeightsQnnp.w_zero_points self = z0 :: z1 :: zs ->
  exists t σ',
    unpack (Qnnp self) σ = Ok ((t, PackedLinearWeightsQnnp.bias_ self), σ')
    /\ qscheme t σ' = Ok (kPerTensorAffine, σ')
    /\ v_qparams <$> tensor_value σ' t = Some (QPerTensor (float_to_double s0) z0).
Proof.
  intros Hd Hs Hls Hz.
  destruct (qnnp_reconstruct_spec self σ ls sz q s0 (s1 :: ss) z0 (z1 :: zs) Hs Hls Hz)
    as (l & σ2 & E & _ & Hl).
  exists (Some l), σ2. split; [| split].
  - cbn [unpack]. unfold PackedLinearWeightsQnnp.unpack. now rewrite Hd.
  - eapply qscheme_per_tensor; [exact Hl | reflexivity].
  - now rewrite (tensor_value_lookup _ _ _ Hl).
Qed.


(** C4.  QNNPACK, reconstructed path: the returned tensor holds one int8
    element per byte written by the decode routine, and the element for a
    byte [v] in 0..255 is exactly [v - 128]. *)
Theorem qnnp_offset_correction (self : PackedLinearWeightsQnnp.t) σ t b σ' :
  defined (PackedLinearWeightsQnnp.orig_weight self) = false ->
  unpack (Qnnp self) σ = Ok ((t, b), σ') ->
  exists d,
    v_data <$> tensor_value σ' t = Some (IntBuf d)
    /\ length d = length (unpackWeights (PackedLinearWeightsQnnp.w self)
                            (PackedLinearWeightsQnnp.w_zero_points self))
    /\ forall i v,
         unpackWeights (PackedLinearWeightsQnnp.w self)
           (PackedLinearWeightsQnnp.w_zero_points self) !! i = Some v ->
         0 <= v <= 255 ->
         d !! i = Some (v - 128).
Proof.
  intros Hd H. cbn [unpack] in H. unfold PackedLinearWeightsQnnp.unpack in H.
  rewrite Hd in H.
  destruct (qnnp_reconstruct_inv _ _ _ _ H)
    as (ls & sz & q & s0 & ss & z0 & zs & Hs & Hls & Hz).
  destruct (qnnp_reconstruct_spec self σ ls sz q s0 ss z0 zs Hs Hls Hz)
    as (l & σ2 & E & _ & Hl).
  rewrite E in H. injection H as <- <- <-.
  exists (corrected_bytes self). split; [| split].
  - now rewrite (tensor_value_lookup _ _ _ Hl).
  - unfold corrected_bytes. now rewrite !length_map.
  - apply corrected_bytes_lookup.
Qed.

(** C5.  fbgemm float16 weight holding the matrix [M] of [K] rows and [N]
    columns: [unpack()] always returns, in every store; the result is a
    float32 tensor of shape [N, K] without quantizer, and its element
    [i][j] (at flat offset [i * K + j]) is [M[j][i]] widened to float32. *)
Theorem fp16_unpack_transposes (self : PackedLinearWeightFp16.t) σ :
  let B := PackedLinearWeightFp16.w self in
  let K := PackedGemmMatrixFP16_numRows B in
  let N := PackedGemmMatrixFP16_numCols B in
  exists t σ' d,
    unpack (Fp16 self) σ = Ok ((t, PackedLinearWeightFp16.bias_ self), σ')
    /\ tensor_value σ' t
       = Some (mkTensorValue [Z.of_nat N; Z.of_nat K] kFloat QNone (FloatBuf d))
    /\ length d = (N * K)%nat
    /\ forall i j, (i < N)%nat -> (j < K)%nat ->
         d !! (i * K + j)%nat = Some (half_to_float (PackedGemmMatrixFP16_at B j i)).
Proof.
  intros B K N.
  destruct (fp16_unpack_spec self σ) as (l & σ2 & E & _ & Hl).
  eexists (Some l), σ2, _. split; [exact E |]. split; [| split].
  - rewrite (tensor_value_lookup _ _ _ Hl). reflexivity.
  - rewrite length_map. unfold PackedGemmMatrixFP16_unpack.
    apply flat_map_rows_length.
  - intros i j Hi Hj.
    change (map half_to_float ?l) with (half_to_float <$> l).
    rewrite list_lookup_fmap. unfold PackedGemmMatrixFP16_unpack.
    fold B. fold K. fold N.
    rewrite (flat_map_rows_lookup
               (fun j' i' => PackedGemmMatrixFP16_at B i' j') K N 0 i j Hi Hj).
    reflexivity.
Qed.

(** C6.  The oneDNN weight always, and the QNNPACK weight whenever it
    retained the original dense tensor, return the retained weight and bias
    handles themselves and leave the store as it was: nothing is allocated,
    copied or written. *)
Theorem retained_pair_returned_unchanged :
  (forall (self : PackedLinearWeightsOnednn.t) σ,
      unpack (Onednn self) σ
      = Ok ((PackedLinearWeightsOnednn.orig_weight_ self,
             PackedLinearWeightsOnednn.orig_bias_ self), σ))
  /\ (forall (self : PackedLinearWeightsQnnp.t) σ,
        defined (PackedLinearWeightsQnnp.orig_weight self) = true ->
        unpack (Qnnp self) σ
        = Ok ((PackedLinearWeightsQnnp.orig_weight self,
               PackedLinearWeightsQnnp.bias_ self), σ)).
Proof.
  split.
  - reflexivity.
  - intros self σ Hd. cbn [unpack]. unfold PackedLinearWeightsQnnp.unpack.
    now rewrite Hd.
Qed.


(** C8.  For every backend: if a call of [unpack()] returns, a second call,
    run in the store the first one left, returns as well; the two weight
    tensors have the same shape, element type, elements and quantization
    parameters, the bias is the same handle, and neither call changes a
    tensor record that existed before it (retained tensors, bias, scales).
    The members of the packed weight itself are never assigned. *)
Theorem unpack_twice_same_result (self : LinearPackedParamsBase) σ r1 σ1 :
  unpack self σ = Ok (r1, σ1) ->
  exists r2 σ2,
    unpack self σ1 = Ok (r2, σ2)
    /\ tensor_value σ2 r2.1 = tensor_value σ2 r1.1
    /\ r2.2 = r1.2
    /\ σ ⊆ σ1 /\ σ1 ⊆ σ2.
Proof.
  intros H. destruct self as [pw | pw | pw | pw]; cbn [unpack] in *.
  - destruct (fbgemm_unpack_inv _ _ _ _ H) as [(Hq & s & ss & z & zs & Hs & Hz) | Hq].
    + destruct (fbgemm_per_tensor_spec pw σ s ss z zs Hq Hs Hz)
        as (l & σa & E & Hsub & Hl).
      rewrite E in H. injection H as <- <-.
      destruct (fbgemm_per_tensor_spec pw σa s ss z zs Hq Hs Hz)
        as (l' & σb & E' & Hsub' & Hl').
      exists (Some l', PackedLinearWeight.bias_ pw), σb. cbn [fst snd].
      split; [exact E' |]. split; [| auto].
      rewrite (tensor_value_plain σb σb l' _ Hl') by (reflexivity || discriminate).
      rewrite (tensor_value_plain σa σb l _ Hl) by (assumption || discriminate).
      reflexivity.
    + destruct (fbgemm_per_channel_spec pw σ Hq)
        as (l & ls & lz & σa & E & Hsub & Hl & Hls & Hlz).
      rewrite E in H. injection H as <- <-.
      destruct (fbgemm_per_channel_spec pw σa Hq)
        as (l' & ls' & lz' & σb & E' & Hsub' & Hl' & Hls' & Hlz').
      exists (Some l', PackedLinearWeight.bias_ pw), σb. cbn [fst snd].
      split; [exact E' |]. split; [| auto].
      rewrite (tensor_value_per_channel σb σb _ _ _ _ _ _ _ _ _ Hl' Hls' Hlz')
        by reflexivity.
      rewrite (tensor_value_per_channel σa σb _ _ _ _ _ _ _ _ _ Hl Hls Hlz)
        by assumption.
      reflexivity.
  - unfold PackedLinearWeightsQnnp.unpack in *.
    destruct (defined (PackedLinearWeightsQnnp.orig_weight pw)).
    + injection H as <- <-. eauto 10.
    + destruct (qnnp_reconstruct_inv _ _ _ _ H)
        as (ls & sz & q & s0 & ss & z0 & zs & Hs & Hls & Hz).
      destruct (qnnp_reconstruct_spec pw σ ls sz q s0 ss z0 zs Hs Hls Hz)
        as (l & σa & E & Hsub & Hl).
      rewrite E in H. injection H as <- <-.
      destruct (qnnp_reconstruct_spec pw σa ls sz q s0 ss z0 zs Hs
                  (lookup_weaken _ _ _ _ Hls Hsub) Hz)
        as (l' & σb & E' & Hsub' & Hl').
      exists (Some l', PackedLinearWeightsQnnp.bias_ pw), σb. cbn [fst snd].
      split; [exact E' |]. split; [| auto].
      rewrite (tensor_value_plain σb σb l' _ Hl') by (reflexivity || discriminate).
      rewrite (tensor_value_plain σa σb l _ Hl) by (assumption || discriminate).
      reflexivity.
  - destruct (fp16_unpack_spec pw σ) as (l & σa & E & Hsub & Hl).
    rewrite E in H. injection H as <- <-.
    destruct (fp16_unpack_spec pw σa) as (l' & σb & E' & Hsub' & Hl').
    exists (Some l', PackedLinearWeightFp16.bias_ pw), σb. cbn [fst snd].
    split; [exact E' |]. split; [| auto].
    rewrite (tensor_value_plain σb σb l' _ Hl') by (reflexivity || discriminate).
    rewrite (tensor_value_plain σa σb l _ Hl) by (assumption || discriminate).
    reflexivity.
  - unfold PackedLinearWeightsOnednn.unpack, ret in *. injection H as <- <-. eauto 10.
Qed.

(** C9.  QNNPACK: the tensor that [_make_per_tensor_quantized_tensor] makes
    carries the per-tensor affine scheme, whatever it wraps, and so the
    [TORCH_CHECK] on the result's scheme never fails: for no weight and no
    store does [unpack()] end in the check's error. *)
Theorem qscheme_check_never_fails :
  (forall (t : Tensor) s z σ,
      match (let! r := _make_per_tensor_quantized_tensor t s z in qscheme r) σ with
      | Ok (scheme, _) => scheme = kPerTensorAffine
      | Err e => e = UndefinedTensor
      end)
  /\ (forall (self : PackedLinearWeightsQnnp.t) σ,
        raises CheckFailed (unpack (Qnnp self) σ) = false).
Proof.
  split; [exact make_per_tensor_then_qscheme |].
  intros self σ. cbn [unpack]. unfold PackedLinearWeightsQnnp.unpack.
  destruct (defined (PackedLinearWeightsQnnp.orig_weight self)); [reflexivity |].
  apply qnnp_reconstruct_no_check.
Qed.

(** C10.  QNNPACK, reconstructed path: the quantization parameters of the
    returned tensor are the scale and the zero point stored at index 0,
    however many further elements ([ss], [zs]) the two arrays hold and
    whatever these are. *)
Theorem qnnp_metadata_from_index_0
    (self : PackedLinearWeightsQnnp.t) σ ls sz q s0 ss z0 zs :
  defined (PackedLinearWeightsQnnp.orig_weight self) = false ->
  PackedLinearWeightsQnnp.w_scales self = Some ls ->
  σ !! ls = Some (mkTensorImpl sz kFloat q (FloatBuf (s0 :: ss))) ->
  PackedLinearWeightsQnnp.w_zero_points self = z0 :: zs ->
  exists t σ',
    unpack (Qnnp self) σ = Ok ((t, PackedLinearWeightsQnnp.bias_ self), σ')
    /\ v_qparams <$> tensor_value σ' t = Some (QPerTensor (float_to_double s0) z0).
Proof.
  intros Hd Hs Hls Hz.
  destruct (qnnp_reconstruct_spec self σ ls sz q s0 ss z0 zs Hs Hls Hz)
    as (l & σ2 & E & _ & Hl).
  exists (Some l), σ2. split.
  - cbn [unpack]. unfold PackedLinearWeightsQnnp.unpack. now rewrite Hd.
  - now rewrite (tensor_value_lookup _ _ _ Hl).
Qed.

End Claims.

(** * The theorems at concrete weights *)

Section Concrete.
#[local] Existing Instances Plain.floats Plain.kernels.

(** The spec's scenarios, run on the plain runtime. *)

(** The 2x3 int8 weight [[1,2,3],[4,5,6]] with scale 0.5 and zero point 0
    unpacks to shape [2, 3], the same values and the metadata (0.5, 0). *)
Example scenario_fbgemm_per_tensor :
  match unpack (Fbgemm Plain.fbgemm_per_tensor) ∅ with
  | Ok ((t, bias), σ) =>
      tensor_value σ t
      = Some (mkTensorValue [2; 3] kQInt8 (QPerTensor (1 # 2)%Q 0)
                (IntBuf [1; 2; 3; 4; 5; 6]))
      /\ bias = None
  | Err _ => False
  end.
Proof. vm_compute. split; reflexivity. Qed.

(** The float16 matrix [[1,2,3],[4,5,6]] (K = 2, N = 3) unpacks to
    [[1,4],[2,5],[3,6]]. *)
Example scenario_fp16 :
  match unpack (Fp16 Plain.fp16_2x3) ∅ with
  | Ok ((t, _), σ) =>
      tensor_value σ t
      = Some (mkTensorValue [3; 2] kFloat QNone
                (FloatBuf [1 # 1; 4 # 1; 2 # 1; 5 # 1; 3 # 1; 6 # 1]%Q))
  | Err _ => False
  end.
Proof. vm_compute. reflexivity. Qed.

(** QNNPACK raw bytes 128, 129, 130 unpack to the signed values 0, 1, 2;
    the bytes 0, 255, 127 to -128, 127, -1. *)
Example scenario_qnnp_offset :
  match unpack (Qnnp Plain.qnnp_two_pairs) Plain.store with
  | Ok ((t, _), σ) =>
      v_data <$> tensor_value σ t = Some (IntBuf [0; 1; 2; -128; 127; -1])
  | Err _ => False
  end.
Proof. vm_compute. reflexivity. Qed.

(** C2 fails on the code: a QNNPACK weight without retained tensor that
    stores the two pairs (0.5, 3) and (0.25, 7) is unpacked without error,
    as a per-tensor quantized tensor with the parameters (0.5, 3).  The raw
    bytes 128, 129, 130, 0, 255, 127 come out as 0, 1, 2, -128, 127, -1. *)
Lemma qnnp_two_pairs_not_rejected :
  defined (PackedLinearWeightsQnnp.orig_weight Plain.qnnp_two_pairs) = false
  /\ PackedLinearWeightsQnnp.w_zero_points Plain.qnnp_two_pairs = [3; 7]
  /\ data <$> Plain.store !! 1%positive = Some (FloatBuf [1 # 2; 1 # 4]%Q)
  /\ match unpack (Qnnp Plain.qnnp_two_pairs) Plain.store with
     | Ok ((t, _), σ) =>
         tensor_value σ t
         = Some (mkTensorValue [2; 3] kQInt8 (QPerTensor (1 # 2)%Q 3)
                   (IntBuf [0; 1; 2; -128; 127; -1]))
     | Err _ => False
     end.
Proof. vm_compute. repeat split; reflexivity. Qed.

Lemma unpack_unrecognized_scheme_fails_witness :
  PackedLinearWeight.q_scheme Plain.fbgemm_symmetric <> kPerTensorAffine
  /\ PackedLinearWeight.q_scheme Plain.fbgemm_symmetric <> kPerChannelAffine
  /\ unpack (Fbgemm Plain.fbgemm_symmetric) Plain.store = Err UndefinedTensor.
Proof.
  split; [discriminate |]. split; [discriminate |].
  apply unpack_unrecognized_scheme_fails; discriminate.
Defined.

Lemma qnnp_many_pairs_unpack_per_tensor_witness :
  exists t σ',
    unpack (Qnnp Plain.qnnp_two_pairs) Plain.store
    = Ok ((t, PackedLinearWeightsQnnp.bias_ Plain.qnnp_two_pairs), σ')
    /\ qscheme t σ' = Ok (kPerTensorAffine, σ')
    /\ v_qparams <$> tensor_value σ' t = Some (QPerTensor (1 # 2)%Q 3).
Proof.
  apply (qnnp_many_pairs_unpack_per_tensor Plain.qnnp_two_pairs Plain.store
           1%positive [2] NoQuantizer (1 # 2)%Q (1 # 4)%Q [] 3 7 []);
    reflexivity.
Defined.



Lemma qnnp_offset_correction_witness :
  exists t b σ',
    defined (PackedLinearWeightsQnnp.orig_weight Plain.qnnp_two_pairs) = false
    /\ unpack (Qnnp Plain.qnnp_two_pairs) Plain.store = Ok ((t, b), σ')
    /\ exists d,
         v_data <$> tensor_value σ' t = Some (IntBuf d)
         /\ length d = 6%nat
         /\ forall i v,
              [128; 129; 130; 0; 255; 127] !! i = Some v -> 0 <= v <= 255 ->
              d !! i = Some (v - 128).
Proof.
  eexists _, _, _. split; [reflexivity |]. split; [reflexivity |].
  eapply (qnnp_offset_correction Plain.qnnp_two_pairs Plain.store); reflexivity.
Defined.

Lemma retained_pair_returned_unchanged_witness :
  defined (PackedLinearWeightsQnnp.orig_weight Plain.qnnp_retained) = true
  /\ unpack (Qnnp Plain.qnnp_retained) Plain.store
     = Ok ((Some 2%positive, Some (Some 3%positive)), Plain.store)
  /\ unpack (Onednn Plain.onednn_dense) Plain.store
     = Ok ((Some 2%positive, Some (Some 3%positive)), Plain.store).
Proof.
  split; [reflexivity |]. split.
  - apply (proj2 retained_pair_returned_unchanged Plain.qnnp_retained Plain.store).
    reflexivity.
  - apply (proj1 retained_pair_returned_unchanged Plain.onednn_dense Plain.store).
Defined.



Lemma unpack_twice_same_result_witness :
  exists r1 σ1,
    unpack (Fbgemm Plain.fbgemm_per_channel) Plain.store = Ok (r1, σ1)
    /\ exists r2 σ2,
         unpack (Fbgemm Plain.fbgemm_per_channel) σ1 = Ok (r2, σ2)
         /\ tensor_value σ2 r2.1 = tensor_value σ2 r1.1
         /\ r2.2 = r1.2
         /\ Plain.store ⊆ σ1 /\ σ1 ⊆ σ2.
Proof.
  eexists _, _. split; [reflexivity |].
  apply (unpack_twice_same_result (Fbgemm Plain.fbgemm_per_channel) Plain.store).
  reflexivity.
Defined.

Lemma qnnp_metadata_from_index_0_witness :
  exists t σ',
    unpack (Qnnp Plain.qnnp_two_pairs) Plain.store
    = Ok ((t, Some (Some 3%positive)), σ')
    /\ v_qparams <$> tensor_value σ' t = Some (QPerTensor (1 # 2)%Q 3).
Proof.
  apply (qnnp_metadata_from_index_0 Plain.qnnp_two_pairs Plain.store
           1%positive [2] NoQuantizer (1 # 2)%Q [(1 # 4)%Q] 3 [7]);
    reflexivity.
Defined.

End Concrete.

(** * Further properties of the four methods *)

(** The value of a byte differs from the integer by a multiple of 256. *)
Lemma to_int8_congruent z : exists k, to_int8 z = z + 256 * k.
Proof.
  unfold to_int8. exists (- ((z + 128) / 256)).
  rewrite (Z.mod_eq (z + 128) 256) by lia. lia.
Qed.

(** The handle each reconstructing path returns is the location allocated
    last, fresh for a store that extends the one the call started in. *)
Section Alloc.
Context {FF : FloatFormats} {KL : KernelLibraries}.
Implicit Types (σ : gmap loc TensorImpl).

Lemma fresh_above σ σk : σ ⊆ σk -> σ !! fresh (dom σk) = None.
Proof.
  intros Hsub. destruct (σ !! fresh (dom σk)) as [impl |] eqn:E; [| reflexivity].
  pose proof (lookup_weaken _ _ _ _ E Hsub) as H.
  rewrite fresh_lookup in H. discriminate.
Qed.

Lemma fbgemm_per_tensor_alloc (self : PackedLinearWeight.t) σ s ss z zs :
  PackedLinearWeight.q_scheme self = kPerTensorAffine ->
  PackedLinearWeight.w_scale self = s :: ss ->
  PackedLinearWeight.w_zp self = z :: zs ->
  exists σk σ',
    PackedLinearWeight.unpack self σ
    = Ok ((Some (fresh (dom σk)), PackedLinearWeight.bias_ self), σ')
    /\ σ ⊆ σk.
Proof.
  intros Hq Hs Hz. eexists σ, _. split; [| reflexivity].
  unfold PackedLinearWeight.unpack. rewrite Hq, Hs, Hz.
  destruct (decide (kPerTensorAffine = kPerTensorAffine)) as [_ | ?]; [| contradiction].
  eapply bind_step.
  { eapply bind_step; [reflexivity |]. eapply bind_step; [reflexivity |].
    apply new_tensor_eq. }
  eapply bind_step; [eapply data_ptr_Some; [apply lookup_insert_eq | reflexivity] |].
  eapply bind_step; [eapply write_data_Some; apply lookup_insert_eq |].
  reflexivity.
Qed.

Lemma fbgemm_per_channel_alloc (self : PackedLinearWeight.t) σ :
  PackedLinearWeight.q_scheme self = kPerChannelAffine ->
  exists σk σ',
    PackedLinearWeight.unpack self σ
    = Ok ((Some (fresh (dom σk)), PackedLinearWeight.bias_ self), σ')
    /\ σ ⊆ σk.
Proof.
  intros Hq.
  set (scales := PackedLinearWeight.w_scale self).
  set (zps := PackedLinearWeight.w_zp self).
  set (BS := mkTensorImpl [Z.of_nat (length scales)] kFloat NoQuantizer (FloatBuf scales)).
  set (BZ := mkTensorImpl [Z.of_nat (length zps)] kInt NoQuantizer (IntBuf zps)).
  set (σ1 := <[fresh (dom σ) := BS]> σ).
  set (σ2 := <[fresh (dom σ1) := BZ]> σ1).
  set (σ3 := <[fresh (dom σ2) :=
                 mkTensorImpl [Z.of_nat (length scales)] kDouble NoQuantizer
                   (DoubleBuf (map float_to_double scales))]> σ2).
  set (σ4 := <[fresh (dom σ3) :=
                 mkTensorImpl [Z.of_nat (length zps)] kLong NoQuantizer (IntBuf zps)]> σ3).
  eexists σ4, _. split.
  - unfold PackedLinearWeight.unpack. rewrite Hq.
    destruct (decide (kPerChannelAffine = kPerTensorAffine)) as [? | _]; [discriminate |].
    destruct (decide (kPerChannelAffine = kPerChannelAffine)) as [_ | ?]; [| contradiction].
    eapply bind_step.
    { eapply bind_step; [apply new_tensor_eq |]. fold scales BS σ1.
      eapply bind_step; [apply new_tensor_eq |]. fold zps BZ σ2.
      eapply bind_step.
      { eapply (toType_convert σ2 _ BS);
          [apply lookup_insert_fresh, lookup_insert_eq | discriminate | reflexivity]. }
      cbn [sizes BS]. fold σ3.
      eapply bind_step.
      { eapply (toType_convert σ3 _ BZ);
          [apply lookup_insert_fresh, lookup_insert_eq | discriminate | reflexivity]. }
      cbn [sizes BZ]. fold σ4.
      apply new_tensor_eq. }
    eapply bind_step; [eapply data_ptr_Some; [apply lookup_insert_eq | reflexivity] |].
    eapply bind_step; [eapply write_data_Some; apply lookup_insert_eq |].
    reflexivity.
  - repeat (etransitivity; [| apply insert_fresh_subseteq]). reflexivity.
Qed.

Lemma qnnp_reconstruct_alloc (self : PackedLinearWeightsQnnp.t) σ ls sz q s0 ss z0 zs :
  PackedLinearWeightsQnnp.w_scales self = Some ls ->
  σ !! ls = Some (mkTensorImpl sz kFloat q (FloatBuf (s0 :: ss))) ->
  PackedLinearWeightsQnnp.w_zero_points self = z0 :: zs ->
  exists σk σ',
    PackedLinearWeightsQnnp.unpack_reconstruct self σ
    = Ok ((Some (fresh (dom σk)), PackedLinearWeightsQnnp.bias_ self), σ')
    /\ σ ⊆ σk.
Proof.
  intros Hs Hls Hz.
  set (l1 := fresh (dom σ)).
  assert (Hl1 : σ !! l1 = None) by apply fresh_lookup.
  assert (Hne : l1 <> ls) by congruence.
  set (W := mkTensorImpl (PackedLinearWeightsQnnp.weight_sizes self) kChar NoQuantizer
              (IntBuf (corrected_bytes self))).
  set (σ1 := <[l1 := W]> σ).
  eexists σ1, _. split; [| apply insert_fresh_subseteq].
  unfold PackedLinearWeightsQnnp.unpack_reconstruct. rewrite Hs.
  eapply bind_step; [eapply data_ptr_Some; [exact Hls | reflexivity] |].
  eapply bind_step; [apply new_tensor_eq |]. fold l1.
  eapply bind_step; [eapply data_ptr_Some; [apply lookup_insert_eq | reflexivity] |].
  eapply bind_step; [eapply write_data_Some; apply lookup_insert_eq |].
  rewrite insert_insert_eq. cbn [sizes dtype quantizer].
  eapply bind_step; [eapply sub__IntBuf; [apply lookup_insert_eq | reflexivity] |].
  rewrite insert_insert_eq. cbn [sizes dtype quantizer].
  fold (corrected_bytes self). fold W. fold σ1.
  eapply bind_step.
  { eapply read_float0_cons.
    - unfold σ1. rewrite lookup_insert_ne by exact Hne. exact Hls.
    - reflexivity. }
  eapply bind_step; [rewrite Hz; reflexivity |].
  eapply bind_step; [eapply make_per_tensor_eq; apply lookup_insert_eq |].
  cbn [sizes data W].
  eapply bind_step; [eapply qscheme_per_tensor; [apply lookup_insert_eq | reflexivity] |].
  reflexivity.
Qed.

Lemma fp16_unpack_alloc (self : PackedLinearWeightFp16.t) σ :
  exists σk σ',
    PackedLinearWeightFp16.unpack self σ
    = Ok ((Some (fresh (dom σk)), PackedLinearWeightFp16.bias_ self), σ')
    /\ σ ⊆ σk.
Proof.
  set (sz := [Z.of_nat (PackedGemmMatrixFP16_numCols (PackedLinearWeightFp16.w self));
              Z.of_nat (PackedGemmMatrixFP16_numRows (PackedLinearWeightFp16.w self))]).
  set (H16 := mkTensorImpl sz kHalf NoQuantizer
                (HalfBuf (PackedGemmMatrixFP16_unpack (PackedLinearWeightFp16.w self)
                            Transpose))).
  set (σ1 := <[fresh (dom σ) := H16]> σ).
  eexists σ1, _. split; [| apply insert_fresh_subseteq].
  unfold PackedLinearWeightFp16.unpack. fold sz.
  eapply bind_step; [apply new_tensor_eq |].
  eapply bind_step; [eapply data_ptr_void_Some; apply lookup_insert_eq |].
  eapply bind_step; [eapply write_data_Some; apply lookup_insert_eq |].
  rewrite insert_insert_eq. cbn [sizes dtype quantizer]. fold H16 σ1.
  eapply bind_step.
  { unfold Tensor_to. eapply (toType_convert σ1 _ H16);
      [apply lookup_insert_eq | discriminate | reflexivity]. }
  reflexivity.
Qed.

End Alloc.

Section Further.
Context {FF : FloatFormats} {KL : KernelLibraries}.
Implicit Types (σ : gmap loc TensorImpl).

(** X1.  fbgemm int8 weight with the per-tensor affine scheme: [unpack()]
    returns a qint8 tensor of shape [numCols, numRows] whose parameters are
    element 0 of [w_scale] (widened to double) and element 0 of [w_zp],
    whatever else the two arrays hold, and whose elements are what the
    decode routine wrote, unchanged; the bias is the stored one. *)
Theorem fbgemm_per_tensor_value (self : PackedLinearWeight.t) σ s ss z zs :
  PackedLinearWeight.q_scheme self = kPerTensorAffine ->
  PackedLinearWeight.w_scale self = s :: ss ->
  PackedLinearWeight.w_zp self = z :: zs ->
  exists t σ',
    unpack (Fbgemm self) σ = Ok ((t, PackedLinearWeight.bias_ self), σ')
    /\ tensor_value σ' t
       = Some (mkTensorValue
                 [Z.of_nat (PackBMatrix_numCols (PackedLinearWeight.w self));
                  Z.of_nat (PackBMatrix_numRows (PackedLinearWeight.w self))]
                 kQInt8
                 (QPerTensor (float_to_double s) z)
                 (IntBuf (PackBMatrix_unpack (PackedLinearWeight.w self)))).
Proof.
  intros Hq Hs Hz.
  destruct (fbgemm_per_tensor_spec self σ s ss z zs Hq Hs Hz) as (l & σ2 & E & _ & Hl).
  exists (Some l), σ2. split; [exact E |].
  now rewrite (tensor_value_lookup _ _ _ Hl).
Qed.

(** X2.  fbgemm int8 weight with the per-channel affine scheme and as many
    zero points as scales: the returned tensor's scales are the stored
    [w_scale], each widened to double, in order; its zero points are the
    stored [w_zp]; the axis is 0; the elements are what the decode routine
    wrote.  Neither array is compared with the number of output channels. *)
Theorem fbgemm_per_channel_value (self : PackedLinearWeight.t) σ :
  PackedLinearWeight.q_scheme self = kPerChannelAffine ->
  length (PackedLinearWeight.w_scale self) = length (PackedLinearWeight.w_zp self) ->
  exists t σ',
    unpack (Fbgemm self) σ = Ok ((t, PackedLinearWeight.bias_ self), σ')
    /\ tensor_value σ' t
       = Some (mkTensorValue
                 [Z.of_nat (PackBMatrix_numCols (PackedLinearWeight.w self));
                  Z.of_nat (PackBMatrix_numRows (PackedLinearWeight.w self))]
                 kQInt8
                 (QPerChannel
                    (Some (DoubleBuf (map float_to_double (PackedLinearWeight.w_scale self))))
                    (Some (IntBuf (PackedLinearWeight.w_zp self)))
                    0)
                 (IntBuf (PackBMatrix_unpack (PackedLinearWeight.w self)))).
Proof.
  intros Hq _.
  destruct (fbgemm_per_channel_spec self σ Hq)
    as (l & ls & lz & σ2 & E & _ & Hl & Hls & Hlz).
  exists (Some l), σ2. split; [exact E |].
  rewrite (tensor_value_lookup _ _ _ Hl). cbn. now rewrite Hls, Hlz.
Qed.

(** X3.  Whenever a reconstructing [unpack()] returns (fbgemm int8, fbgemm
    float16, QNNPACK without retained tensor), the returned weight is a
    defined tensor at a location the store did not use before the call: it
    aliases no tensor that existed, in particular none the packed weight
    holds, and a later call in the resulting store cannot return the same
    handle. *)
Theorem unpack_returns_fresh_tensor (self : LinearPackedParamsBase) σ t b σ' :
  reconstructs self = true ->
  unpack self σ = Ok ((t, b), σ') ->
  exists l, t = Some l /\ σ !! l = None /\ is_Some (σ' !! l).
Proof.
  intros Hr H. destruct self as [pw | pw | pw | pw]; cbn [unpack reconstructs] in *.
  - destruct (fbgemm_unpack_inv _ _ _ _ H) as [(Hq & s & ss & z & zs & Hs & Hz) | Hq].
    + destruct (fbgemm_per_tensor_alloc pw σ s ss z zs Hq Hs Hz) as (σk & σ2 & E & Hsub).
      destruct (fbgemm_per_tensor_spec pw σ s ss z zs Hq Hs Hz) as (l & σ3 & E' & _ & Hl).
      rewrite E in H. rewrite E in E'. injection H as <- <- <-. injection E' as <- <-.
      eexists. split; [reflexivity |]. split; [now apply fresh_above | eauto].
    + destruct (fbgemm_per_channel_alloc pw σ Hq) as (σk & σ2 & E & Hsub).
      destruct (fbgemm_per_channel_spec pw σ Hq) as (l & ls & lz & σ3 & E' & _ & Hl & _).
      rewrite E in H. rewrite E in E'. injection H as <- <- <-. injection E' as <- <-.
      eexists. split; [reflexivity |]. split; [now apply fresh_above | eauto].
  - unfold PackedLinearWeightsQnnp.unpack in H.
    destruct (defined (PackedLinearWeightsQnnp.orig_weight pw)); [discriminate |].
    destruct (qnnp_reconstruct_inv _ _ _ _ H)
      as (ls & sz & q & s0 & ss & z0 & zs & Hs & Hls & Hz).
    destruct (qnnp_reconstruct_alloc pw σ ls sz q s0 ss z0 zs Hs Hls Hz)
      as (σk & σ2 & E & Hsub).
    destruct (qnnp_reconstruct_spec pw σ ls sz q s0 ss z0 zs Hs Hls Hz)
      as (l & σ3 & E' & _ & Hl).
    rewrite E in H. rewrite E in E'. injection H as <- <- <-. injection E' as <- <-.
    eexists. split; [reflexivity |]. split; [now apply fresh_above | eauto].
  - destruct (fp16_unpack_alloc pw σ) as (σk & σ2 & E & Hsub).
    destruct (fp16_unpack_spec pw σ) as (l & σ3 & E' & _ & Hl).
    rewrite E in H. rewrite E in E'. injection H as <- <- <-. injection E' as <- <-.
    eexists. split; [reflexivity |]. split; [now apply fresh_above | eauto].
  - discriminate.
Qed.

(** X4.  For every backend and on every path, the bias [unpack()] returns is
    the bias member of the packed weight itself: the same optional handle,
    never a copy and never recomputed. *)
Theorem unpack_returns_stored_bias (self : LinearPackedParamsBase) σ t b σ' :
  unpack self σ = Ok ((t, b), σ') -> b = stored_bias self.
Proof.
  intros H. destruct self as [pw | pw | pw | pw]; cbn [unpack stored_bias] in *.
  - destruct (fbgemm_unpack_inv _ _ _ _ H) as [(Hq & s & ss & z & zs & Hs & Hz) | Hq].
    + destruct (fbgemm_per_tensor_spec pw σ s ss z zs Hq Hs Hz) as (l & σ2 & E & _).
      rewrite E in H. now injection H as <- <- <-.
    + destruct (fbgemm_per_channel_spec pw σ Hq) as (l & ls & lz & σ2 & E & _).
      rewrite E in H. now injection H as <- <- <-.
  - unfold PackedLinearWeightsQnnp.unpack in H.
    destruct (defined (PackedLinearWeightsQnnp.orig_weight pw)).
    + now injection H as <- <- <-.
    + destruct (qnnp_reconstruct_inv _ _ _ _ H)
        as (ls & sz & q & s0 & ss & z0 & zs & Hs & Hls & Hz).
      destruct (qnnp_reconstruct_spec pw σ ls sz q s0 ss z0 zs Hs Hls Hz)
        as (l & σ2 & E & _).
      rewrite E in H. now injection H as <- <- <-.
  - destruct (fp16_unpack_spec pw σ) as (l & σ2 & E & _).
    rewrite E in H. now injection H as <- <- <-.
  - now injection H as <- <- <-.
Qed.

(** X5.  The two fbgemm weights are unpacked from the packed object alone:
    if [unpack()] returns in one store it returns in every store, with a
    weight tensor of the same shape, element type, elements and quantization
    parameters and with the same bias. *)
Theorem unpack_store_independent (self : LinearPackedParamsBase) σ r σ' σ0 :
  reads_no_tensor self = true ->
  unpack self σ = Ok (r, σ') ->
  exists r0 σ0',
    unpack self σ0 = Ok (r0, σ0')
    /\ tensor_value σ0' r0.1 = tensor_value σ' r.1
    /\ r0.2 = r.2.
Proof.
  intros Hr H. destruct self as [pw | pw | pw | pw]; cbn [unpack reads_no_tensor] in *;
    try discriminate.
  - destruct (fbgemm_unpack_inv _ _ _ _ H) as [(Hq & s & ss & z & zs & Hs & Hz) | Hq].
    + destruct (fbgemm_per_tensor_spec pw σ s ss z zs Hq Hs Hz) as (l & σa & E & _ & Hl).
      rewrite E in H. injection H as <- <-.
      destruct (fbgemm_per_tensor_spec pw σ0 s ss z zs Hq Hs Hz) as (l' & σb & E' & _ & Hl').
      exists (Some l', PackedLinearWeight.bias_ pw), σb. cbn [fst snd].
      split; [exact E' |]. split; [| reflexivity].
      now rewrite (tensor_value_lookup _ _ _ Hl), (tensor_value_lookup _ _ _ Hl').
    + destruct (fbgemm_per_channel_spec pw σ Hq)
        as (l & ls & lz & σa & E & _ & Hl & Hls & Hlz).
      rewrite E in H. injection H as <- <-.
      destruct (fbgemm_per_channel_spec pw σ0 Hq)
        as (l' & ls' & lz' & σb & E' & _ & Hl' & Hls' & Hlz').
      exists (Some l', PackedLinearWeight.bias_ pw), σb. cbn [fst snd].
      split; [exact E' |]. split; [| reflexivity].
      rewrite (tensor_value_per_channel σb σb _ _ _ _ _ _ _ _ _ Hl' Hls' Hlz')
        by reflexivity.
      rewrite (tensor_value_per_channel σa σa _ _ _ _ _ _ _ _ _ Hl Hls Hlz)
        by reflexivity.
      reflexivity.
  - destruct (fp16_unpack_spec pw σ) as (l & σa & E & _ & Hl).
    rewrite E in H. injection H as <- <-.
    destruct (fp16_unpack_spec pw σ0) as (l' & σb & E' & _ & Hl').
    exists (Some l', PackedLinearWeightFp16.bias_ pw), σb. cbn [fst snd].
    split; [exact E' |]. split; [| reflexivity].
    now rewrite (tensor_value_lookup _ _ _ Hl), (tensor_value_lookup _ _ _ Hl').
Qed.

(** Storing through [int8_t*] and subtracting 128 in int8 is exact modulo 256. *)
Lemma offset_correction_congruent v :
  exists k, to_int8 (to_int8 v - 128) = v - 128 + 256 * k.
Proof.
  destruct (to_int8_congruent v) as (k1 & E1).
  destruct (to_int8_congruent (to_int8 v - 128)) as (k2 & E2).
  exists (k1 + k2). lia.
Qed.

(** X6.  QNNPACK, reconstructed path, for whatever value [v] the decode
    routine writes (inside 0..255 or not): the element of the returned
    tensor is a signed byte, between -128 and 127, congruent to [v - 128]
    modulo 256. *)
Theorem qnnp_offset_modulo_256 (self : PackedLinearWeightsQnnp.t) σ t b σ' :
  defined (PackedLinearWeightsQnnp.orig_weight self) = false ->
  unpack (Qnnp self) σ = Ok ((t, b), σ') ->
  exists d,
    v_data <$> tensor_value σ' t = Some (IntBuf d)
    /\ forall i v,
         unpackWeights (PackedLinearWeightsQnnp.w self)
           (PackedLinearWeightsQnnp.w_zero_points self) !! i = Some v ->
         exists x, d !! i = Some x
                   /\ -128 <= x <= 127
                   /\ (x - (v - 128)) mod 256 = 0.
Proof.
  intros Hd H. cbn [unpack] in H. unfold PackedLinearWeightsQnnp.unpack in H.
  rewrite Hd in H.
  destruct (qnnp_reconstruct_inv _ _ _ _ H)
    as (ls & sz & q & s0 & ss & z0 & zs & Hs & Hls & Hz).
  destruct (qnnp_reconstruct_spec self σ ls sz q s0 ss z0 zs Hs Hls Hz)
    as (l & σ2 & E & _ & Hl).
  rewrite E in H. injection H as <- <- <-.
  exists (corrected_bytes self). split.
  - now rewrite (tensor_value_lookup _ _ _ Hl).
  - intros i v Hi. exists (to_int8 (to_int8 v - 128)). split; [| split].
    + unfold corrected_bytes. rewrite map_map.
      change (map ?f ?l) with (f <$> l).
      now rewrite list_lookup_fmap, Hi.
    + apply to_int8_range.
    + destruct (offset_correction_congruent v) as (k & ->).
      replace (v - 128 + 256 * k - (v - 128)) with (k * 256) by lia.
      apply Z_mod_mult.
Qed.

(** X7.  QNNPACK, reconstructed path: [unpack()] returns only if [w_scales]
    is a defined tensor of element type float, and it leaves that tensor as
    it was. *)
Theorem qnnp_reconstruct_needs_float_scales (self : PackedLinearWeightsQnnp.t) σ r σ' :
  defined (PackedLinearWeightsQnnp.orig_weight self) = false ->
  unpack (Qnnp self) σ = Ok (r, σ') ->
  exists ls impl,
    PackedLinearWeightsQnnp.w_scales self = Some ls
    /\ σ !! ls = Some impl
    /\ dtype impl = kFloat
    /\ σ' !! ls = Some impl.
Proof.
  intros Hd H. cbn [unpack] in H. unfold PackedLinearWeightsQnnp.unpack in H.
  rewrite Hd in H.
  destruct (qnnp_reconstruct_inv _ _ _ _ H)
    as (ls & sz & q & s0 & ss & z0 & zs & Hs & Hls & Hz).
  destruct (qnnp_reconstruct_spec self σ ls sz q s0 ss z0 zs Hs Hls Hz)
    as (l & σ2 & E & Hsub & _).
  rewrite E in H. injection H as <- <-.
  eexists ls, _. split; [exact Hs |]. split; [exact Hls |]. split; [reflexivity |].
  eapply lookup_weaken; eassumption.
Qed.

End Further.

(** The further properties at concrete weights. *)
Section FurtherConcrete.
#[local] Existing Instances Plain.floats Plain.kernels.

Lemma fbgemm_per_tensor_value_witness :
  exists t σ',
    unpack (Fbgemm Plain.fbgemm_per_tensor) Plain.store = Ok ((t, None), σ')
    /\ tensor_value σ' t
       = Some (mkTensorValue [2; 3] kQInt8 (QPerTensor (1 # 2)%Q 0)
                 (IntBuf [1; 2; 3; 4; 5; 6])).
Proof.
  apply (fbgemm_per_tensor_value Plain.fbgemm_per_tensor Plain.store
           (1 # 2)%Q [] 0 []); reflexivity.
Defined.

Lemma fbgemm_per_channel_value_witness :
  exists t σ',
    unpack (Fbgemm Plain.fbgemm_per_channel) Plain.store
    = Ok ((t, Some (Some 3%positive)), σ')
    /\ tensor_value σ' t
       = Some (mkTensorValue [2; 3] kQInt8
                 (QPerChannel (Some (DoubleBuf [1 # 2; 1 # 4]%Q)) (Some (IntBuf [0; 1])) 0)
                 (IntBuf [1; 2; 3; 4; 5; 6])).
Proof.
  apply (fbgemm_per_channel_value Plain.fbgemm_per_channel Plain.store); reflexivity.
Defined.

Lemma unpack_returns_fresh_tensor_witness :
  exists t b σ',
    unpack (Fp16 Plain.fp16_2x3) Plain.store = Ok ((t, b), σ')
    /\ exists l, t = Some l /\ Plain.store !! l = None /\ is_Some (σ' !! l).
Proof.
  eexists _, _, _. split; [reflexivity |].
  eapply (unpack_returns_fresh_tensor (Fp16 Plain.fp16_2x3) Plain.store); reflexivity.
Defined.

Lemma unpack_returns_stored_bias_witness :
  exists t b σ',
    unpack (Qnnp Plain.qnnp_two_pairs) Plain.store = Ok ((t, b), σ')
    /\ b = Some (Some 3%positive).
Proof.
  eexists _, _, _. split; [reflexivity |].
  eapply (unpack_returns_stored_bias (Qnnp Plain.qnnp_two_pairs) Plain.store).
  reflexivity.
Defined.

Lemma unpack_store_independent_witness :
  exists r σ',
    unpack (Fbgemm Plain.fbgemm_per_channel) Plain.store = Ok (r, σ')
    /\ exists r0 σ0',
         unpack (Fbgemm Plain.fbgemm_per_channel) ∅ = Ok (r0, σ0')
         /\ tensor_value σ0' r0.1 = tensor_value σ' r.1
         /\ r0.2 = r.2.
Proof.
  eexists _, _. split; [reflexivity |].
  apply (unpack_store_independent (Fbgemm Plain.fbgemm_per_channel) Plain.store);
    reflexivity.
Defined.

Lemma qnnp_offset_modulo_256_witness :
  exists t b σ',
    defined (PackedLinearWeightsQnnp.orig_weight Plain.qnnp_two_pairs) = false
    /\ unpack (Qnnp Plain.qnnp_two_pairs) Plain.store = Ok ((t, b), σ')
    /\ exists d,
         v_data <$> tensor_value σ' t = Some (IntBuf d)
         /\ forall i v,
              [128; 129; 130; 0; 255; 127] !! i = Some v ->
              exists x, d !! i = Some x
                        /\ -128 <= x <= 127
                        /\ (x - (v - 128)) mod 256 = 0.
Proof.
  eexists _, _, _. split; [reflexivity |]. split; [reflexivity |].
  eapply (qnnp_offset_modulo_256 Plain.qnnp_two_pairs Plain.store); reflexivity.
Defined.

Lemma qnnp_reconstruct_needs_float_scales_witness :
  exists r σ',
    defined (PackedLinearWeightsQnnp.orig_weight Plain.qnnp_two_pairs) = false
    /\ unpack (Qnnp Plain.qnnp_two_pairs) Plain.store = Ok (r, σ')
    /\ exists ls impl,
         PackedLinearWeightsQnnp.w_scales Plain.qnnp_two_pairs = Some ls
         /\ Plain.store !! ls = Some impl
         /\ dtype impl = kFloat
         /\ σ' !! ls = Some impl.
Proof.
  eexists _, _. split; [reflexivity |]. split; [reflexivity |].
  eapply (qnnp_reconstruct_needs_float_scales Plain.qnnp_two_pairs Plain.store);
    reflexivity.
Defined.

End FurtherConcrete.
